(** * The entity class registry (source/backend/ClassRegistry.ts)

    A shallow embedding of [ClassRegistry] and [MetaDataRegistry].

    - The static state of the process (the class map of [ClassRegistry], the
      schemas registered with [Schemas], the constructor objects allocated so
      far) is one record, [World], threaded through a state-and-exception
      monad [M]: a JavaScript [throw] leaves the mutations made so far in
      place.
    - The mutual recursion [generateClass -> getClass -> generateClass] does
      not terminate on cyclic metadata; it is embedded with a fuel argument
      and a third outcome, [OutOfFuel].
    - Strings are the source's strings restricted to ASCII, where
      [toLowerCase] maps [A-Z] to [a-z] and leaves the rest alone.
    - [registerModuleClasses], which takes a module object of type [any], is
      not embedded; [registerEcClass], which it calls, is.
    - [eval(jsDef)] runs the text that [generateClassFromMetaData] builds.
      That text is a fixed sequence of statements with the schema and class
      names in the holes; [GeneratedClass] is this sequence, [render] prints
      it and [evalGenerated] runs it.  The reading of the text as this
      sequence supposes that the names in the holes are identifiers that do
      not capture the names the text itself refers to; that the text may
      declare one name twice, which [eval] rejects, is part of the
      embedding. *)

From Stdlib Require Import Ascii.
From stdpp Require Import strings gmap.

(** ** JavaScript strings *)

Module JsString.

Definition toLowerCaseChar (c : ascii) : ascii :=
  let n := nat_of_ascii c in
  if (65 <=? n) && (n <=? 90) then ascii_of_nat (n + 32) else c.

(** [s.toLowerCase()] *)
Fixpoint toLowerCase (s : string) : string :=
  match s with
  | EmptyString => EmptyString
  | String c r => String (toLowerCaseChar c) (toLowerCase r)
  end.

(** [s.split(":")]: never empty; one more element than [s] has colons. *)
Fixpoint split_colon (s : string) : list string :=
  match s with
  | EmptyString => [EmptyString]
  | String c r =>
      if Ascii.eqb c ":"%char then EmptyString :: split_colon r
      else match split_colon r with
           | h :: t => String c h :: t
           | [] => [String c EmptyString]
           end
  end.

(** What string concatenation makes of a value that may be [undefined]. *)
Definition str (v : option string) : string :=
  match v with
  | Some s => s
  | None => "undefined"
  end.

(** [!s] on a value that is a string or [undefined]. *)
Definition falsy (v : option string) : bool :=
  match v with
  | None => true
  | Some s => bool_decide (s = "")
  end.

(** Whether [s] contains a colon. *)
Fixpoint has_colon (s : string) : bool :=
  match s with
  | EmptyString => false
  | String c r => Ascii.eqb c ":"%char || has_colon r
  end.

End JsString.

Import JsString.

(** ** Data model *)

(** The members of [IModelStatus] that this file uses. *)
Inductive IModelStatus : Type :=
  | BadArg
  | NotFound.

(** What a [throw] carries: an [IModelError] with its [errorNumber], or one of
    the errors the language raises itself: reading a property of [undefined]
    or extending a class by [undefined] ([TypeError]), a text that [eval]
    rejects ([SyntaxError]), a failed [assert] ([AssertError]). *)
Inductive JsError : Type :=
  | IModelError (errorNumber : IModelStatus)
  | TypeError
  | SyntaxError
  | AssertError.

(** Modelled from the spec: the class [Schema] of Schema.ts is not part of
    the sources; a schema is a named logical grouping of classes, and the
    registry reads nothing of it but its [name]. *)
Record Schema : Type := mkSchema { schema_name : string }.

(** [EntityCtor]: a JavaScript class object.  [ctor_id] stands for the
    identity of the object (two evaluations of one class text give two
    objects), [ctor_name] is its [name], [ctor_extends] the class it extends
    and [ctor_schema] its static property [schema]. *)
#[warnings="-register-all"]
Inductive EntityCtor : Type :=
  mkEntityCtor {
    ctor_id : nat;
    ctor_name : string;
    ctor_extends : option EntityCtor;
    ctor_schema : option Schema
  }.

(** [EntityMetaData], as far as the registry reads it.  Both fields are
    tested against [undefined] by [generateClass], so both are optional. *)
Record EntityMetaData : Type := mkEntityMetaData {
  ecclass : option string;
  baseClasses : option (list string)
}.

(** [EntityProps]: [createInstance] tests [classFullName] for falsiness. *)
Record EntityProps : Type := mkEntityProps {
  classFullName : option string
}.

(** [class MetaDataRegistry { private _registry: Map<string, EntityMetaData> }] *)
Record MetaDataRegistry : Type := mkMetaDataRegistry {
  _registry : gmap string EntityMetaData
}.

(** [IModelDb], as far as the registry reads it. *)
Record IModelDb : Type := mkIModelDb {
  classMetaDataRegistry : MetaDataRegistry
}.

(** Modelled from the spec: the constructor of [Entity] (Entity.ts) is not
    part of the sources; an entity is a runtime object materialized from
    property data plus a resolved constructor. *)
Record Entity : Type := mkEntity {
  entity_ctor : EntityCtor;
  entity_props : EntityProps;
  entity_iModel : IModelDb
}.

(** The static state: [ClassRegistry.classMap], the schemas registered with
    [Schemas] (latest first), and the number of class objects created. *)
Record World : Type := mkWorld {
  classMap : gmap string EntityCtor;
  registeredSchemas : list Schema;
  allocated : nat
}.

Definition emptyWorld : World := mkWorld ∅ [] 0.

(** ** Completions and the monad of static methods *)

Inductive Completion (A : Type) : Type :=
  | Normal (a : A)
  | Throw (e : JsError)
  | OutOfFuel.

Arguments Normal {A} a.
Arguments Throw {A} e.
Arguments OutOfFuel {A}.

Definition M (A : Type) : Type := World -> Completion A * World.

Definition ret {A} (a : A) : M A := fun w => (Normal a, w).

Definition throw {A} (e : JsError) : M A := fun w => (Throw e, w).

Definition diverge {A} : M A := fun w => (OutOfFuel, w).

Definition bind {A B} (m : M A) (k : A -> M B) : M B :=
  fun w =>
    match m w with
    | (Normal a, w') => k a w'
    | (Throw e, w') => (Throw e, w')
    | (OutOfFuel, w') => (OutOfFuel, w')
    end.

Definition gets {A} (f : World -> A) : M A := fun w => (Normal (f w), w).

Definition modify (f : World -> World) : M unit := fun w => (Normal tt, f w).

Declare Scope js_scope.
Delimit Scope js_scope with js.
Notation "x <- m ;; k" := (bind m (fun x => k))
  (at level 100, m at next level, right associativity) : js_scope.
Notation "m ;;; k" := (bind m (fun _ => k))
  (at level 100, right associativity) : js_scope.
Open Scope js_scope.

(** Modelled from the spec: [assert] of bentleyjs-core is not part of the
    sources; a failed assertion is a programmer error, raised as an
    exception. *)
Definition assert (condition : bool) : M unit :=
  if condition then ret tt else throw AssertError.

(** ** MetaDataRegistry *)

Module MetaData.

(** A method of a [MetaDataRegistry] object: from the object's state to a
    result and the state it leaves. *)
Definition Method (A : Type) : Type := MetaDataRegistry -> A * MetaDataRegistry.

Definition find (classFullName : string) : Method (option EntityMetaData) :=
  fun this =>
    let key := toLowerCase classFullName in
    (_registry this !! key, this).

Definition add (classFullName : string) (metaData : EntityMetaData) : Method unit :=
  fun this =>
    let key := toLowerCase classFullName in
    (tt, mkMetaDataRegistry (<[key := metaData]> (_registry this))).

End MetaData.

(** ** Schemas *)

(** Modelled from the spec: [Schemas] (Schema.ts) is not part of the sources;
    a directory of named schemas in which [getRegisteredSchema] answers with
    the schema registered under a name, names compared without regard to
    case as everywhere in this core. *)
Definition getRegisteredSchema (domainName : string) (w : World) : option Schema :=
  List.find
    (fun s => String.eqb (toLowerCase (schema_name s)) (toLowerCase domainName))
    (registeredSchemas w).

Definition registerSchema (schema : Schema) : M unit :=
  modify (fun w => mkWorld (classMap w) (schema :: registeredSchemas w) (allocated w)).

(** ** ClassRegistry *)

Definition getKey (schemaName className : string) : string :=
  toLowerCase (schemaName +:+ ":" +:+ className).

Definition lookupClass (name : string) (w : World) : option EntityCtor :=
  classMap w !! toLowerCase name.

(** [classMap.has(key)] *)
Definition Map_has (key : string) (m : gmap string EntityCtor) : bool :=
  bool_decide (is_Some (m !! key)).

(** [(err instanceof IModelError) && err.errorNumber === IModelStatus.NotFound] *)
Definition isClassNotFoundError (err : JsError) : bool :=
  match err with
  | IModelError NotFound => true
  | _ => false
  end.

Definition isMetaDataNotFoundError (err : JsError) : bool :=
  match err with
  | IModelError NotFound => true
  | _ => false
  end.

Definition makeClassNotFoundError : JsError := IModelError NotFound.

Definition makeMetaDataNotFoundError : JsError := IModelError NotFound.

Definition generateProxySchema (schemaName : string) : string :=
  "class " +:+ schemaName +:+
  " extends ClassRegistry.getSchemaBaseClass(){} ClassRegistry.registerSchema("
  +:+ schemaName +:+ ");".

(** [x.split(":")] where [x] may be [undefined]. *)
Definition split_ecclass (x : option string) : M (list string) :=
  match x with
  | Some s => ret (split_colon s)
  | None => throw TypeError
  end.

(** [x.length !== 0] where [x] may be [undefined]. *)
Definition nonempty_baseClasses (x : option (list string)) : M bool :=
  match x with
  | Some l => ret (negb (length l =? 0))
  | None => throw TypeError
  end.

(** The text of the class, as the source concatenates it. *)
Definition generateClassFromMetaData (entityMetaData : EntityMetaData) : M string :=
  name <- split_ecclass (ecclass entityMetaData) ;;
  let schema := str (name !! 0) in
  let className := str (name !! 1) in
  let classStaticProps :=
    className +:+ ".schema = ClassRegistry.getRegisteredSchema('" +:+ schema +:+ "');" in
  hasBase <- nonempty_baseClasses (baseClasses entityMetaData) ;;
  let classExtends :=
    if hasBase
    then "extends ClassRegistry.lookupClass(entityMetaData.baseClasses[0])"
    else "" in
  registered <- gets (getRegisteredSchema schema) ;;
  let domainDef :=
    match registered with
    | Some _ => ""
    | None => generateProxySchema schema
    end in
  ret (domainDef +:+ "class " +:+ className +:+ " " +:+ classExtends +:+ " { } "
       +:+ classStaticProps).

Definition registerEcClass (ctor : EntityCtor) : M unit :=
  match ctor_schema ctor with
  | None => throw TypeError
  | Some schema =>
      let key := getKey (schema_name schema) (ctor_name ctor) in
      modify (fun w =>
        mkWorld (<[key := ctor]> (classMap w)) (registeredSchemas w) (allocated w))
  end.

(** The statements of [jsDef]: the declaration and registration of a proxy
    schema (when [gen_domainDef]), the declaration of the class, with or
    without its [extends] clause, the assignment of its [schema] and the call
    of [registerEcClass] on it. *)
Record GeneratedClass : Type := mkGeneratedClass {
  gen_domainDef : bool;
  gen_schema : string;
  gen_className : string;
  gen_classExtends : bool
}.

Definition render (g : GeneratedClass) : string :=
  (if gen_domainDef g then generateProxySchema (gen_schema g) else "")
  +:+ "class " +:+ gen_className g +:+ " "
  +:+ (if gen_classExtends g
       then "extends ClassRegistry.lookupClass(entityMetaData.baseClasses[0])"
       else "")
  +:+ " { } "
  +:+ gen_className g +:+ ".schema = ClassRegistry.getRegisteredSchema('"
  +:+ gen_schema g +:+ "');"
  +:+ " ClassRegistry.registerEcClass(" +:+ gen_className g +:+ "); ".

(** The statements that [generateClassFromMetaData] writes out. *)
Definition generatedStatements (entityMetaData : EntityMetaData) : M GeneratedClass :=
  name <- split_ecclass (ecclass entityMetaData) ;;
  let schema := str (name !! 0) in
  let className := str (name !! 1) in
  hasBase <- nonempty_baseClasses (baseClasses entityMetaData) ;;
  registered <- gets (getRegisteredSchema schema) ;;
  ret (mkGeneratedClass (negb (bool_decide (is_Some registered))) schema className hasBase).

(** A new class object. *)
Definition newClass (name : string) (super : option EntityCtor) : M EntityCtor :=
  fun w =>
    (Normal (mkEntityCtor (allocated w) name super None),
     mkWorld (classMap w) (registeredSchemas w) (S (allocated w))).

(** [ClassRegistry.lookupClass(entityMetaData.baseClasses[0])] in an [extends]
    clause: the class to extend. *)
Definition lookupSuper (entityMetaData : EntityMetaData) : M EntityCtor :=
  match baseClasses entityMetaData with
  | Some (base :: _) =>
      super <- gets (lookupClass base) ;;
      match super with
      | Some c => ret c
      | None => throw TypeError
      end
  | _ => throw TypeError
  end.

(** [eval(jsDef)], in the scope of [generateClassForEntity], where
    [entityMetaData] is bound.  A text that declares one name twice is
    rejected before any of it runs. *)
Definition evalGenerated (entityMetaData : EntityMetaData) (g : GeneratedClass) : M unit :=
  if gen_domainDef g && bool_decide (gen_schema g = gen_className g)
  then throw SyntaxError
  else
    (if gen_domainDef g then registerSchema (mkSchema (gen_schema g)) else ret tt) ;;;
    super <- (if gen_classExtends g
              then (c <- lookupSuper entityMetaData ;; ret (Some c))
              else ret None) ;;
    cls <- newClass (gen_className g) super ;;
    schema <- gets (getRegisteredSchema (gen_schema g)) ;;
    let cls := mkEntityCtor (ctor_id cls) (ctor_name cls) (ctor_extends cls) schema in
    registerEcClass cls.

(** [assert(!!v)] and the use of [v] that follows it. *)
Definition assertDefined {A} (v : option A) : M A :=
  match v with
  | Some a => ret a
  | None => throw AssertError
  end.

(** The text handed to [eval]. *)
Definition jsDefText (entityMetaData : EntityMetaData) : M string :=
  name <- split_ecclass (ecclass entityMetaData) ;;
  text <- generateClassFromMetaData entityMetaData ;;
  ret (text +:+ " ClassRegistry.registerEcClass(" +:+ str (name !! 1) +:+ "); ").

Definition generateClassForEntity (entityMetaData : EntityMetaData) : M EntityCtor :=
  jsDef <- generatedStatements entityMetaData ;;
  evalGenerated entityMetaData jsDef ;;;
  ctor <- gets (lookupClass (str (ecclass entityMetaData))) ;;
  assertDefined ctor.

(** [getClass], given the [generateClass] it calls. *)
Definition getClass_with (generateClass : string -> IModelDb -> M EntityCtor)
    (fullName : string) (iModel : IModelDb) : M EntityCtor :=
  let key := toLowerCase fullName in
  has <- gets (fun w => Map_has key (classMap w)) ;;
  if negb has then generateClass fullName iModel
  else
    ctor <- gets (fun w => classMap w !! key) ;;
    assert (bool_decide (is_Some ctor)) ;;;
    match ctor with
    | None => throw makeClassNotFoundError
    | Some c => ret c
    end.

Fixpoint generateClass (fuel : nat) (classFullName : string) (iModel : IModelDb)
    : M EntityCtor :=
  match fuel with
  | O => diverge
  | S fuel' =>
      let metadata := fst (MetaData.find classFullName (classMetaDataRegistry iModel)) in
      match metadata with
      | None => throw makeMetaDataNotFoundError
      | Some metadata =>
          match ecclass metadata with
          | None => throw makeMetaDataNotFoundError
          | Some _ =>
              match baseClasses metadata with
              | Some (base :: _) =>
                  getClass_with (generateClass fuel') base iModel ;;; ret tt
              | _ => ret tt
              end ;;;
              generateClassForEntity metadata
          end
      end
  end.

Definition getClass (fuel : nat) : string -> IModelDb -> M EntityCtor :=
  getClass_with (generateClass fuel).

Definition isClassRegistered (schemaName className : string) (w : World) : bool :=
  Map_has (getKey schemaName className) (classMap w).

(** [new ctor(props, iModel)] *)
Definition construct (ctor : EntityCtor) (props : EntityProps) (iModel : IModelDb)
    : M Entity :=
  ret (mkEntity ctor props iModel).

(** [generateClass] returns a constructor or throws, so the test of its
    result against [undefined] has nothing to do. *)
Definition createInstance (fuel : nat) (props : EntityProps) (iModel : IModelDb)
    : M Entity :=
  if falsy (classFullName props) then throw (IModelError BadArg)
  else
    let name := str (classFullName props) in
    found <- gets (fun w => classMap w !! toLowerCase name) ;;
    ctor <- match found with
            | Some c => ret c
            | None => generateClass fuel name iModel
            end ;;
    construct ctor props iModel.

(** ** What the properties speak of *)

(** [baseClasses[0]], when [baseClasses] is there and not empty. *)
Definition primaryBase (md : EntityMetaData) : option string :=
  match baseClasses md with
  | Some (b :: _) => Some b
  | _ => None
  end.

(** The class that the [extends] clause of the generated text evaluates to
    in [w]. *)
Definition superOf (md : EntityMetaData) (g : GeneratedClass) (w : World)
    : option EntityCtor :=
  if gen_classExtends g then
    match baseClasses md with
    | Some (b :: _) => lookupClass b w
    | _ => None
    end
  else None.

(** The constructor that the text generated for [md], whose [ecclass] is [e],
    makes when it runs in [w] and finds [sch] as its schema. *)
Definition synthesized (md : EntityMetaData) (e : string) (sch : Schema) (w : World)
    : EntityCtor :=
  mkEntityCtor (allocated w) (str (split_colon e !! 1))
    (match primaryBase md with
     | Some b => lookupClass b w
     | None => None
     end)
    (Some sch).

(** The chain of primary bases that starts at a name comes to an end: at a
    registered class, at a name without a descriptor, or at a descriptor
    without a primary base. *)
Inductive Grounded (iModel : IModelDb) (w : World) : string -> Prop :=
  | Grounded_registered (n : string) :
      is_Some (lookupClass n w) -> Grounded iModel w n
  | Grounded_absent (n : string) :
      fst (MetaData.find n (classMetaDataRegistry iModel)) = None ->
      Grounded iModel w n
  | Grounded_root (n : string) (md : EntityMetaData) :
      fst (MetaData.find n (classMetaDataRegistry iModel)) = Some md ->
      primaryBase md = None ->
      Grounded iModel w n
  | Grounded_derived (n : string) (md : EntityMetaData) (b : string) :
      fst (MetaData.find n (classMetaDataRegistry iModel)) = Some md ->
      primaryBase md = Some b ->
      Grounded iModel w b ->
      Grounded iModel w n.

(** The descriptor that the metadata registry holds under [n], if any, names
    the class [n] itself, up to letter case. *)
Definition selfNamed (iModel : IModelDb) (n : string) : Prop :=
  forall md e,
    fst (MetaData.find n (classMetaDataRegistry iModel)) = Some md ->
    ecclass md = Some e ->
    toLowerCase e = toLowerCase n.

(** ** Scenarios *)

Definition emptyRegistry : MetaDataRegistry := mkMetaDataRegistry ∅.

Definition rootMetaData : EntityMetaData :=
  mkEntityMetaData (Some "S:Root") (Some []).

Definition midMetaData : EntityMetaData :=
  mkEntityMetaData (Some "S:Mid") (Some ["S:Root"]).

Definition leafMetaData : EntityMetaData :=
  mkEntityMetaData (Some "S:Leaf") (Some ["S:Mid"]).

(** [S:Leaf] extends [S:Mid] extends [S:Root]. *)
Definition chainRegistry : MetaDataRegistry :=
  snd (MetaData.add "S:Leaf" leafMetaData
    (snd (MetaData.add "S:Mid" midMetaData
      (snd (MetaData.add "S:Root" rootMetaData emptyRegistry))))).

(** A descriptor added under a name that is not its own. *)
Definition aliasRegistry : MetaDataRegistry :=
  snd (MetaData.add "S:Alias" (mkEntityMetaData (Some "S:Real") (Some []))
         emptyRegistry).

(** The two constructors that two calls of [getClass("S:Alias")] make, and
    the states they leave. *)
Definition realCtor : EntityCtor :=
  mkEntityCtor 0 "Real" None (Some (mkSchema "S")).

Definition realCtor' : EntityCtor :=
  mkEntityCtor 1 "Real" None (Some (mkSchema "S")).

Definition aliasWorld : World :=
  mkWorld (<["s:real" := realCtor]> ∅) [mkSchema "S"] 1.

Definition aliasWorld' : World :=
  mkWorld (<["s:real" := realCtor']> ∅) [mkSchema "S"] 2.

(** A class that is its own primary base. *)
Definition loopRegistry : MetaDataRegistry :=
  snd (MetaData.add "S:Loop" (mkEntityMetaData (Some "S:Loop") (Some ["S:Loop"]))
         emptyRegistry).

(** A class written by hand and registered with [registerEcClass], with no
    metadata in the cache. *)
Definition handWritten : EntityCtor :=
  mkEntityCtor 0 "X" None (Some (mkSchema "S")).

Definition handWrittenWorld : World :=
  snd (registerEcClass handWritten (mkWorld ∅ [mkSchema "S"] 1)).

Definition chainIModel : IModelDb := mkIModelDb chainRegistry.

Definition rootCtor : EntityCtor :=
  mkEntityCtor 0 "Root" None (Some (mkSchema "S")).

Definition midCtor : EntityCtor :=
  mkEntityCtor 1 "Mid" (Some rootCtor) (Some (mkSchema "S")).

Definition leafCtor : EntityCtor :=
  mkEntityCtor 2 "Leaf" (Some midCtor) (Some (mkSchema "S")).

(** The state that [getClass("S:Leaf")] leaves behind on an empty registry. *)
Definition chainWorld : World :=
  mkWorld (<["s:leaf" := leafCtor]> (<["s:mid" := midCtor]> (<["s:root" := rootCtor]> ∅)))
          [mkSchema "S"] 3.

(** The state in which the class of [S:Mid] is synthesized. *)
Definition rootWorld : World :=
  mkWorld (<["s:root" := rootCtor]> ∅) [mkSchema "S"] 1.

Definition midWorld : World :=
  mkWorld (<["s:mid" := midCtor]> (<["s:root" := rootCtor]> ∅)) [mkSchema "S"] 2.

(** A chain whose root class bears the name of its schema. *)
Definition clashMetaData : EntityMetaData :=
  mkEntityMetaData (Some "S:S") (Some []).

Definition clashRegistry : MetaDataRegistry :=
  snd (MetaData.add "S:Leaf" leafMetaData
    (snd (MetaData.add "S:Mid" (mkEntityMetaData (Some "S:Mid") (Some ["S:S"]))
      (snd (MetaData.add "S:S" clashMetaData emptyRegistry))))).

(** ** The synthesis, branch by branch, and chains of primary bases *)

(** The state after the class of [md] has been made in [w1] and registered. *)
Definition afterSynthesis (md : EntityMetaData) (e : string) (sch : Schema) (w1 : World)
    : World :=
  mkWorld
    (<[getKey (schema_name sch) (str (split_colon e !! 1)) := synthesized md e sch w1]>
       (classMap w1))
    (registeredSchemas w1)
    (S (allocated w1)).

(** The state after the proxy schema of [schema] has been registered. *)
Definition withProxySchema (schema : string) (w : World) : World :=
  mkWorld (classMap w) (mkSchema schema :: registeredSchemas w) (allocated w).

(** [generateClassForEntity], branch by branch. *)
Definition synthesisOutcome (md : EntityMetaData) (w : World)
    : Completion EntityCtor * World :=
  match ecclass md, baseClasses md with
  | Some e, Some bs =>
      let schema := str (split_colon e !! 0) in
      let className := str (split_colon e !! 1) in
      let finish (sch : Schema) (w1 : World) :=
        match primaryBase md with
        | Some b =>
            match lookupClass b w1 with
            | None => (Throw TypeError, w1)
            | Some _ =>
                (match lookupClass e (afterSynthesis md e sch w1) with
                 | Some c => Normal c
                 | None => Throw AssertError
                 end, afterSynthesis md e sch w1)
            end
        | None =>
            (match lookupClass e (afterSynthesis md e sch w1) with
             | Some c => Normal c
             | None => Throw AssertError
             end, afterSynthesis md e sch w1)
        end in
      match getRegisteredSchema schema w with
      | Some sch => finish sch w
      | None =>
          if bool_decide (schema = className) then (Throw SyntaxError, w)
          else finish (mkSchema schema) (withProxySchema schema w)
      end
  | _, _ => (Throw TypeError, w)
  end.

(** Every class and every schema that [w] has registered, [w'] has too. *)
Definition grows (w w' : World) : Prop :=
  (forall k c, classMap w !! k = Some c -> is_Some (classMap w' !! k))
  /\ (forall n s, getRegisteredSchema n w = Some s -> getRegisteredSchema n w' = Some s).

(** What [generateClassForEntity] may throw. *)
Definition synthesisError (e : JsError) : Prop :=
  e = TypeError \/ e = SyntaxError \/ e = AssertError.

(** The chain of primary bases that starts at [n] runs through unregistered
    names with complete descriptors to an unregistered name whose descriptor
    is missing or lacks its [ecclass]. *)
Inductive Dangling (iModel : IModelDb) (w : World) : string -> Prop :=
  | Dangling_absent (n : string) :
      lookupClass n w = None ->
      fst (MetaData.find n (classMetaDataRegistry iModel)) = None ->
      Dangling iModel w n
  | Dangling_anonymous (n : string) (md : EntityMetaData) :
      lookupClass n w = None ->
      fst (MetaData.find n (classMetaDataRegistry iModel)) = Some md ->
      ecclass md = None ->
      Dangling iModel w n
  | Dangling_derived (n : string) (md : EntityMetaData) (e b : string) :
      lookupClass n w = None ->
      fst (MetaData.find n (classMetaDataRegistry iModel)) = Some md ->
      ecclass md = Some e ->
      primaryBase md = Some b ->
      Dangling iModel w b ->
      Dangling iModel w n.

(** [e] is [schema:class]: one colon, and the class part differs from the
    schema part. *)
Definition wfFullName (e : string) : bool :=
  match split_colon e with
  | [s; c] => negb (String.eqb s c)
  | _ => false
  end.

(** The chain of primary bases that starts at [n] runs through unregistered
    names, each with a descriptor that names it and is well formed, down to a
    registered class or to a descriptor with an empty list of bases. *)
Inductive Resolvable (iModel : IModelDb) (w : World) : string -> Prop :=
  | Resolvable_registered (n : string) :
      is_Some (lookupClass n w) -> Resolvable iModel w n
  | Resolvable_root (n : string) (md : EntityMetaData) (e : string) :
      lookupClass n w = None ->
      fst (MetaData.find n (classMetaDataRegistry iModel)) = Some md ->
      ecclass md = Some e ->
      toLowerCase e = toLowerCase n ->
      wfFullName e = true ->
      baseClasses md = Some [] ->
      Resolvable iModel w n
  | Resolvable_derived (n : string) (md : EntityMetaData) (e b : string)
      (rest : list string) :
      lookupClass n w = None ->
      fst (MetaData.find n (classMetaDataRegistry iModel)) = Some md ->
      ecclass md = Some e ->
      toLowerCase e = toLowerCase n ->
      wfFullName e = true ->
      baseClasses md = Some (b :: rest) ->
      Resolvable iModel w b ->
      Resolvable iModel w n.

(** [m] is [n] or one of the names that [getClass(n)] goes through: the
    primary bases, as long as the names are not registered. *)
Inductive Ancestor (iModel : IModelDb) (w : World) : string -> string -> Prop :=
  | Ancestor_self (n : string) : Ancestor iModel w n n
  | Ancestor_step (n : string) (md : EntityMetaData) (b m : string) :
      lookupClass n w = None ->
      fst (MetaData.find n (classMetaDataRegistry iModel)) = Some md ->
      primaryBase md = Some b ->
      Ancestor iModel w b m ->
      Ancestor iModel w n m.

(** ** More scenarios *)

(** A descriptor without its list of bases. *)
Definition bareMetaData : EntityMetaData := mkEntityMetaData (Some "S:Bare") None.

Definition bareIModel : IModelDb :=
  mkIModelDb (snd (MetaData.add "S:Bare" bareMetaData emptyRegistry)).

(** A descriptor whose [ecclass] has one colon too many. *)
Definition nestedMetaData : EntityMetaData :=
  mkEntityMetaData (Some "S:A:B") (Some []).

Definition nestedCtor : EntityCtor :=
  mkEntityCtor 0 "A" None (Some (mkSchema "S")).

Definition nestedWorld : World :=
  mkWorld (<["s:a" := nestedCtor]> ∅) [mkSchema "S"] 1.

(** [S:Leaf] extends [S:Mid] extends [S:Gone], of which there is no
    descriptor. *)
Definition danglingIModel : IModelDb :=
  mkIModelDb
    (snd (MetaData.add "S:Leaf" leafMetaData
      (snd (MetaData.add "S:Mid" (mkEntityMetaData (Some "S:Mid") (Some ["S:Gone"]))
         emptyRegistry)))).

(** Two classes written by hand, of one name and schema name up to case. *)
Definition manualCtor : EntityCtor :=
  mkEntityCtor 7 "X" None (Some (mkSchema "S")).

Definition manualCtor' : EntityCtor :=
  mkEntityCtor 8 "x" None (Some (mkSchema "s")).

(** * Properties *)

(** ** Strings *)

Lemma toLowerCase_app (a b : string) :
  toLowerCase (a +:+ b) = toLowerCase a +:+ toLowerCase b.
Proof.
  induction a as [|c a IH]; simpl; [reflexivity|].
  now rewrite IH.
Qed.

Lemma getKey_lower (schemaName className : string) :
  getKey schemaName className
  = toLowerCase schemaName +:+ ":" +:+ toLowerCase className.
Proof.
  unfold getKey. now rewrite !toLowerCase_app.
Qed.

Lemma getKey_case (s s' c c' : string) :
  toLowerCase s = toLowerCase s' -> toLowerCase c = toLowerCase c' ->
  getKey s c = getKey s' c'.
Proof.
  intros Hs Hc. rewrite !getKey_lower. now rewrite Hs, Hc.
Qed.

Lemma split_colon_nocolon (c : string) :
  has_colon c = false -> split_colon c = [c].
Proof.
  induction c as [|a c IH]; simpl; [reflexivity|].
  intros H. apply orb_false_iff in H as [Ha Hc].
  rewrite Ha, (IH Hc). reflexivity.
Qed.

Lemma split_colon_fullName (s c : string) :
  has_colon s = false -> has_colon c = false ->
  split_colon (s +:+ ":" +:+ c) = [s; c].
Proof.
  intros Hs Hc. induction s as [|a s IH].
  - change (split_colon ("" +:+ ":" +:+ c)) with ("" :: split_colon c).
    now rewrite (split_colon_nocolon c Hc).
  - simpl. simpl in Hs. apply orb_false_iff in Hs as [Ha Hs].
    rewrite Ha, (IH Hs). reflexivity.
Qed.

(** ** The schema directory *)

Lemma getRegisteredSchema_name (n : string) (w : World) (s : Schema) :
  getRegisteredSchema n w = Some s ->
  toLowerCase (schema_name s) = toLowerCase n.
Proof.
  unfold getRegisteredSchema. intros H.
  apply find_some in H as [_ H]. now apply String.eqb_eq in H.
Qed.

Lemma getRegisteredSchema_registered (n : string) (w w' : World) :
  registerSchema (mkSchema n) w = (Normal tt, w') ->
  getRegisteredSchema n w' = Some (mkSchema n).
Proof.
  unfold registerSchema, modify. intros [= <-].
  unfold getRegisteredSchema. simpl. now rewrite String.eqb_refl.
Qed.

(** ** Error kinds *)

(** C1. [BadArg] is told apart from the two not-found kinds, but a
    class-not-found error and a metadata-not-found error are the same
    [IModelError(NotFound)]: each of the two predicates accepts the error
    that the other constructor makes, and no error is classified differently
    by the two. *)
Theorem notFound_kinds_coincide :
  isClassNotFoundError makeMetaDataNotFoundError = true
  /\ isMetaDataNotFoundError makeClassNotFoundError = true
  /\ isClassNotFoundError makeClassNotFoundError
     = isMetaDataNotFoundError makeClassNotFoundError
  /\ isClassNotFoundError makeMetaDataNotFoundError
     = isMetaDataNotFoundError makeMetaDataNotFoundError
  /\ (forall err, isClassNotFoundError err = isMetaDataNotFoundError err)
  /\ isClassNotFoundError (IModelError BadArg) = false
  /\ isMetaDataNotFoundError (IModelError BadArg) = false.
Proof.
  repeat split; try reflexivity.
Qed.

(** ** MetaDataRegistry *)

Lemma find_pure (classFullName : string) (this : MetaDataRegistry) :
  snd (MetaData.find classFullName this) = this.
Proof. reflexivity. Qed.

Lemma find_case (n n' : string) (this : MetaDataRegistry) :
  toLowerCase n = toLowerCase n' ->
  MetaData.find n this = MetaData.find n' this.
Proof. unfold MetaData.find. now intros ->. Qed.

(** C9. After [add(n, d)], [find(n')] returns [d] for every [n'] equal to [n]
    up to letter case; a second [add] under the same normalized key
    overwrites the first; and [find] leaves the cache as it was. *)
Theorem MetaDataRegistry_find_add (n n' : string) (d : EntityMetaData)
    (this : MetaDataRegistry) :
  toLowerCase n' = toLowerCase n ->
  fst (MetaData.find n' (snd (MetaData.add n d this))) = Some d
  /\ (forall d0 : EntityMetaData,
        fst (MetaData.find n' (snd (MetaData.add n d (snd (MetaData.add n' d0 this)))))
        = Some d
        /\ snd (MetaData.add n d (snd (MetaData.add n' d0 this)))
           = snd (MetaData.add n d this))
  /\ (forall (m : string) (r : MetaDataRegistry), snd (MetaData.find m r) = r).
Proof.
  intros Hn. unfold MetaData.find, MetaData.add. simpl. rewrite Hn.
  split; [apply lookup_insert_eq|].
  split; [|reflexivity].
  intros d0. split; [apply lookup_insert_eq|].
  now rewrite insert_insert_eq.
Qed.

Lemma MetaDataRegistry_find_add_witness :
  fst (MetaData.find "foo:bar"
         (snd (MetaData.add "Foo:Bar" (mkEntityMetaData (Some "Foo:Bar") (Some []))
                 (mkMetaDataRegistry ∅))))
  = Some (mkEntityMetaData (Some "Foo:Bar") (Some [])).
Proof.
  apply (MetaDataRegistry_find_add "Foo:Bar" "foo:bar"
           (mkEntityMetaData (Some "Foo:Bar") (Some [])) (mkMetaDataRegistry ∅)).
  reflexivity.
Defined.

(** ** Case-insensitive keys *)

Lemma generateClass_case (fuel : nat) (n n' : string) (iModel : IModelDb) :
  toLowerCase n = toLowerCase n' ->
  generateClass fuel n iModel = generateClass fuel n' iModel.
Proof.
  intros Hn. destruct fuel as [|fuel]; [reflexivity|].
  simpl. unfold MetaData.find. now rewrite Hn.
Qed.

(** C5. Two full names that differ only in letter case are one key: from any
    state, [getClass] on the one and on the other give the same result and
    leave the same state, and neither [lookupClass] nor [find] tells them
    apart. *)
Theorem getClass_case_insensitive (fuel : nat) (n n' : string) (iModel : IModelDb)
    (w : World) :
  toLowerCase n = toLowerCase n' ->
  getClass fuel n iModel w = getClass fuel n' iModel w
  /\ lookupClass n w = lookupClass n' w
  /\ MetaData.find n (classMetaDataRegistry iModel)
     = MetaData.find n' (classMetaDataRegistry iModel).
Proof.
  intros Hn. repeat split.
  - unfold getClass, getClass_with. rewrite Hn.
    now rewrite (generateClass_case fuel n n' iModel Hn).
  - unfold lookupClass. now rewrite Hn.
  - now apply find_case.
Qed.

(** ** createInstance *)

(** C6. When [classFullName] is missing or empty, [createInstance] throws
    [IModelError(BadArg)] and leaves the static state, the class map
    included, as it was. *)
Theorem createInstance_BadArg (fuel : nat) (props : EntityProps) (iModel : IModelDb)
    (w : World) :
  classFullName props = None \/ classFullName props = Some "" ->
  createInstance fuel props iModel w = (Throw (IModelError BadArg), w).
Proof.
  intros H. unfold createInstance.
  destruct H as [-> | ->]; reflexivity.
Qed.

(** ** The map-hit path of getClass *)

Lemma Map_has_true (key : string) (m : gmap string EntityCtor) :
  Map_has key m = true -> exists ctor, m !! key = Some ctor.
Proof.
  unfold Map_has. intros H. apply bool_decide_eq_true in H.
  destruct H as [c Hc]. now exists c.
Qed.

Lemma Map_has_false (key : string) (m : gmap string EntityCtor) :
  Map_has key m = false <-> m !! key = None.
Proof.
  unfold Map_has. rewrite bool_decide_eq_false.
  rewrite <- eq_None_not_Some. reflexivity.
Qed.

Lemma getClass_with_hit (gen : string -> IModelDb -> M EntityCtor)
    (fullName : string) (iModel : IModelDb) (w : World) (ctor : EntityCtor) :
  classMap w !! toLowerCase fullName = Some ctor ->
  getClass_with gen fullName iModel w = (Normal ctor, w).
Proof.
  intros H. unfold getClass_with, bind, gets, Map_has. simpl.
  rewrite H. simpl.
  rewrite bool_decide_eq_true_2 by eauto. simpl.
  now rewrite H.
Qed.

Lemma getClass_with_miss (gen : string -> IModelDb -> M EntityCtor)
    (fullName : string) (iModel : IModelDb) (w : World) :
  classMap w !! toLowerCase fullName = None ->
  getClass_with gen fullName iModel w = gen fullName iModel w.
Proof.
  intros H. unfold getClass_with, bind, gets. simpl.
  apply Map_has_false in H. rewrite H. reflexivity.
Qed.

(** C10. Whenever the class map has the normalized key, the [get] that
    follows returns a constructor, and [getClass] returns that constructor,
    with any amount of fuel and without touching the state: neither the
    assertion nor the [throw] of the class-not-found error behind the
    [!ctor] guard runs. *)
Theorem getClass_hit_returns (fuel : nat) (fullName : string) (iModel : IModelDb)
    (w : World) :
  Map_has (toLowerCase fullName) (classMap w) = true ->
  exists ctor : EntityCtor,
    classMap w !! toLowerCase fullName = Some ctor
    /\ getClass fuel fullName iModel w = (Normal ctor, w)
    /\ fst (getClass fuel fullName iModel w) <> Throw makeClassNotFoundError
    /\ fst (getClass fuel fullName iModel w) <> Throw AssertError.
Proof.
  intros H. apply Map_has_true in H as [ctor Hc]. exists ctor.
  assert (Hg : getClass fuel fullName iModel w = (Normal ctor, w))
    by now apply getClass_with_hit.
  rewrite Hg. simpl. repeat split; try assumption; discriminate.
Qed.

(** ** Running the generated text *)

Ltac run :=
  repeat (progress (unfold bind, ret, gets, modify, throw, diverge, registerSchema,
                    lookupSuper, newClass, registerEcClass, assertDefined, assert; simpl)).

Lemma getRegisteredSchema_frame n m m' a a' l :
  getRegisteredSchema n (mkWorld m l a) = getRegisteredSchema n (mkWorld m' l a').
Proof. reflexivity. Qed.

Lemma evalGenerated_inv md g w w' :
  evalGenerated md g w = (Normal tt, w') ->
  exists sch,
    toLowerCase (schema_name sch) = toLowerCase (gen_schema g)
    /\ (gen_classExtends g = true -> is_Some (superOf md g w))
    /\ (gen_domainDef g = true -> gen_schema g <> gen_className g)
    /\ w' = mkWorld
         (<[getKey (schema_name sch) (gen_className g) :=
             mkEntityCtor (allocated w) (gen_className g) (superOf md g w) (Some sch)]>
            (classMap w))
         (if gen_domainDef g then mkSchema (gen_schema g) :: registeredSchemas w
          else registeredSchemas w)
         (S (allocated w)).
Proof.
  unfold evalGenerated, superOf.
  destruct g as [dd sn cn ext]; simpl.
  destruct dd; simpl; [case_bool_decide as Hne; [discriminate|]|];
    destruct ext; run; unfold lookupClass; run.
  - destruct (baseClasses md) as [[|b rest]|]; simpl; try (intro Hf; discriminate Hf).
    destruct (classMap w !! toLowerCase b) as [p|] eqn:Hp; run;
      [|intro Hf; discriminate Hf].
    unfold getRegisteredSchema; simpl. rewrite String.eqb_refl.
    intros [= <-]. exists (mkSchema sn). simpl.
    repeat split; eauto.
  - unfold getRegisteredSchema; simpl. rewrite String.eqb_refl.
    intros [= <-]. exists (mkSchema sn). simpl.
    repeat split; eauto. discriminate.
  - destruct (baseClasses md) as [[|b rest]|]; simpl; try (intro Hf; discriminate Hf).
    destruct (classMap w !! toLowerCase b) as [p|] eqn:Hp; run;
      [|intro Hf; discriminate Hf].
    rewrite (getRegisteredSchema_frame _ _ (classMap w) _ (allocated w)).
    replace (mkWorld (classMap w) (registeredSchemas w) (allocated w)) with w
      by now destruct w.
    destruct (getRegisteredSchema sn w) as [sch|] eqn:Hs;
      [|intro Hf; discriminate Hf].
    intros [= <-]. exists sch.
    repeat split; eauto using getRegisteredSchema_name.
  - rewrite (getRegisteredSchema_frame _ _ (classMap w) _ (allocated w)).
    replace (mkWorld (classMap w) (registeredSchemas w) (allocated w)) with w
      by now destruct w.
    destruct (getRegisteredSchema sn w) as [sch|] eqn:Hs;
      [|intro Hf; discriminate Hf].
    intros [= <-]. exists sch.
    repeat split; eauto using getRegisteredSchema_name; discriminate.
Qed.

Lemma evalGenerated_frame md g w r w' :
  evalGenerated md g w = (r, w') ->
  r <> Normal tt -> classMap w' = classMap w.
Proof.
  unfold evalGenerated.
  destruct g as [dd sn cn ext]; simpl.
  destruct dd; simpl; [case_bool_decide as Hne; [now intros [= <- <-]|]|];
    destruct ext; run; unfold lookupClass; run.
  - destruct (baseClasses md) as [[|b rest]|]; simpl; try now intros [= <- <-].
    destruct (classMap w !! toLowerCase b) as [p|] eqn:Hp; run;
      [|now intros [= <- <-]].
    unfold getRegisteredSchema; simpl. rewrite String.eqb_refl.
    intros [= <- <-]. congruence.
  - unfold getRegisteredSchema; simpl. rewrite String.eqb_refl.
    intros [= <- <-]. congruence.
  - destruct (baseClasses md) as [[|b rest]|]; simpl; try now intros [= <- <-].
    destruct (classMap w !! toLowerCase b) as [p|] eqn:Hp; run;
      [|now intros [= <- <-]].
    match goal with |- context [getRegisteredSchema sn ?x] =>
      destruct (getRegisteredSchema sn x) end.
    + intros [= <- <-]. congruence.
    + now intros [= <- <-].
  - match goal with |- context [getRegisteredSchema sn ?x] =>
      destruct (getRegisteredSchema sn x) end.
    + intros [= <- <-]. congruence.
    + now intros [= <- <-].
Qed.

Lemma generatedStatements_inv md w g w' :
  generatedStatements md w = (Normal g, w') ->
  w' = w /\ exists e bs,
    ecclass md = Some e /\ baseClasses md = Some bs
    /\ g = mkGeneratedClass
             (negb (bool_decide (is_Some (getRegisteredSchema (str (split_colon e !! 0)) w))))
             (str (split_colon e !! 0)) (str (split_colon e !! 1))
             (negb (length bs =? 0)).
Proof.
  unfold generatedStatements, split_ecclass, nonempty_baseClasses.
  destruct (ecclass md) as [e|]; run; [|intro Hf; discriminate Hf].
  destruct (baseClasses md) as [bs|]; run; [|intro Hf; discriminate Hf].
  intros [= <- <-]. split; [reflexivity|]. exists e, bs. auto.
Qed.

Lemma generatedStatements_throw md w e w' :
  generatedStatements md w = (Throw e, w') -> w' = w.
Proof.
  unfold generatedStatements, split_ecclass, nonempty_baseClasses.
  destruct (ecclass md) as [e0|]; run; [|now intros [= <- <-]].
  destruct (baseClasses md) as [bs|]; run; [|now intros [= <- <-]].
  intro Hf; discriminate Hf.
Qed.

Lemma generatedStatements_fuel md w w' :
  generatedStatements md w <> (OutOfFuel, w').
Proof.
  unfold generatedStatements, split_ecclass, nonempty_baseClasses.
  destruct (ecclass md) as [e0|]; run; [|discriminate].
  destruct (baseClasses md) as [bs|]; run; discriminate.
Qed.

Lemma evalGenerated_fuel md g w w' :
  evalGenerated md g w <> (OutOfFuel, w').
Proof.
  unfold evalGenerated.
  destruct g as [dd sn cn ext]; simpl.
  destruct dd; simpl; [case_bool_decide as Hne; [discriminate|]|];
    destruct ext; run; unfold lookupClass; run;
    repeat match goal with
    | |- context [match baseClasses md with _ => _ end] =>
        destruct (baseClasses md) as [[|? ?]|]; simpl
    | |- context [match classMap w !! ?k with _ => _ end] =>
        destruct (classMap w !! k); simpl
    | |- context [match getRegisteredSchema ?n ?x with _ => _ end] =>
        destruct (getRegisteredSchema n x); simpl
    end; discriminate.
Qed.

Lemma generateClassForEntity_cases md w r w' :
  generateClassForEntity md w = (r, w') ->
  (classMap w' = classMap w /\ exists err, r = Throw err)
  \/ (exists e sch,
        ecclass md = Some e
        /\ toLowerCase (schema_name sch) = toLowerCase (str (split_colon e !! 0))
        /\ (forall b, primaryBase md = Some b -> is_Some (lookupClass b w))
        /\ classMap w' =
             <[getKey (schema_name sch) (str (split_colon e !! 1)) :=
                 synthesized md e sch w]> (classMap w)
        /\ allocated w' = S (allocated w)
        /\ r = match lookupClass e w' with
               | Some c => Normal c
               | None => Throw AssertError
               end).
Proof.
  unfold generateClassForEntity. unfold bind at 1.
  destruct (generatedStatements md w) as [[g|err|] w1] eqn:Hg.
  - apply generatedStatements_inv in Hg as (-> & e & bs & He & Hb & Hgeq).
    unfold bind at 1.
    destruct (evalGenerated md g w) as [[u|err|] w2] eqn:Hev; [destruct u| |].
    + apply evalGenerated_inv in Hev as (sch & Hsch & Hsup & _ & ->).
      rewrite He. run.
      match goal with |- (match ?l with _ => _ end _ = _) -> _ =>
        assert (Hl : exists o, l = o) by eauto; destruct Hl as [o Hl]; rewrite Hl end.
      intros Hr. right. exists e, sch. subst g. simpl in *.
      unfold synthesized, primaryBase, superOf in *. simpl in *. rewrite Hb in *.
      destruct bs as [|b rest]; simpl in *.
      * destruct o; injection Hr as <- <-; simpl; rewrite Hl;
          repeat split; auto; intros b [=].
      * destruct o; injection Hr as <- <-; simpl; rewrite Hl;
          repeat split; auto; intros b' [= <-]; now apply Hsup.
    + intros [= <- <-]. left. split; [|eauto].
      eapply evalGenerated_frame; [exact Hev|discriminate].
    + now apply evalGenerated_fuel in Hev.
  - intros [= <- <-]. left. apply generatedStatements_throw in Hg as ->. eauto.
  - now apply generatedStatements_fuel in Hg.
Qed.

Lemma evalGenerated_ok md g w :
  gen_domainDef g = negb (bool_decide (is_Some (getRegisteredSchema (gen_schema g) w))) ->
  gen_schema g <> gen_className g ->
  (gen_classExtends g = true -> is_Some (superOf md g w)) ->
  exists sch,
    toLowerCase (schema_name sch) = toLowerCase (gen_schema g)
    /\ evalGenerated md g w =
       (Normal tt,
        mkWorld
         (<[getKey (schema_name sch) (gen_className g) :=
             mkEntityCtor (allocated w) (gen_className g) (superOf md g w) (Some sch)]>
            (classMap w))
         (if gen_domainDef g then mkSchema (gen_schema g) :: registeredSchemas w
          else registeredSchemas w)
         (S (allocated w))).
Proof.
  unfold evalGenerated, superOf.
  destruct g as [dd sn cn ext]; simpl. intros Hdd Hne Hsup.
  rewrite bool_decide_eq_false_2 by assumption. rewrite andb_false_r.
  destruct (getRegisteredSchema sn w) as [sch|] eqn:Hs.
  - rewrite bool_decide_eq_true_2 in Hdd by eauto. simpl in Hdd. subst dd.
    exists sch. split; [eauto using getRegisteredSchema_name|].
    destruct ext; run; unfold lookupClass in *; run.
    + destruct (baseClasses md) as [[|b rest]|]; simpl;
        try (destruct (Hsup eq_refl) as [? [=]]).
      destruct (Hsup eq_refl) as [p Hp]. rewrite Hp. run.
      rewrite (getRegisteredSchema_frame _ _ (classMap w) _ (allocated w)).
      replace (mkWorld (classMap w) (registeredSchemas w) (allocated w)) with w
        by now destruct w.
      rewrite Hs. reflexivity.
    + rewrite (getRegisteredSchema_frame _ _ (classMap w) _ (allocated w)).
      replace (mkWorld (classMap w) (registeredSchemas w) (allocated w)) with w
        by now destruct w.
      rewrite Hs. reflexivity.
  - rewrite bool_decide_eq_false_2 in Hdd by (intros [? [=]]). simpl in Hdd. subst dd.
    exists (mkSchema sn). split; [reflexivity|].
    destruct ext; run; unfold lookupClass in *; run.
    + destruct (baseClasses md) as [[|b rest]|]; simpl;
        try (destruct (Hsup eq_refl) as [? [=]]).
      destruct (Hsup eq_refl) as [p Hp]. rewrite Hp. run.
      unfold getRegisteredSchema; simpl. rewrite String.eqb_refl. reflexivity.
    + unfold getRegisteredSchema; simpl. rewrite String.eqb_refl. reflexivity.
Qed.

Lemma generateClassForEntity_ok md s cn w :
  ecclass md = Some (s +:+ ":" +:+ cn) ->
  has_colon s = false -> has_colon cn = false -> s <> cn ->
  baseClasses md <> None ->
  (forall b, primaryBase md = Some b -> is_Some (lookupClass b w)) ->
  exists sch w',
    generateClassForEntity md w
    = (Normal (synthesized md (s +:+ ":" +:+ cn) sch w), w')
    /\ classMap w' =
       <[toLowerCase (s +:+ ":" +:+ cn) := synthesized md (s +:+ ":" +:+ cn) sch w]>
         (classMap w).
Proof.
  intros He Hs Hc Hne Hb Hsup.
  destruct (baseClasses md) as [bs|] eqn:Hbs; [clear Hb|congruence].
  unfold generateClassForEntity. unfold bind at 1.
  unfold generatedStatements, split_ecclass, nonempty_baseClasses.
  rewrite He, Hbs. run. rewrite (split_colon_fullName s cn Hs Hc). simpl.
  set (g := mkGeneratedClass _ _ _ _).
  destruct (evalGenerated_ok md g w) as (sch & Hsch & Hev); subst g; simpl; auto.
  { unfold superOf, primaryBase in *. simpl. rewrite Hbs in *.
    destruct bs as [|b rest]; simpl; [discriminate|]. intros _. now apply Hsup. }
  simpl in Hev. rewrite Hev.
  assert (Hk : getKey (schema_name sch) cn = toLowerCase (s +:+ ":" +:+ cn)).
  { now apply getKey_case. }
  assert (Hsy : mkEntityCtor (allocated w) cn
                  (superOf md (mkGeneratedClass
                     (negb (bool_decide (is_Some (getRegisteredSchema s w)))) s cn
                     (negb (length bs =? 0))) w) (Some sch)
                = synthesized md (s +:+ ":" +:+ cn) sch w).
  { unfold synthesized, superOf, primaryBase. simpl.
    rewrite (split_colon_fullName s cn Hs Hc), Hbs. simpl.
    destruct bs; reflexivity. }
  rewrite Hsy, Hk. unfold lookupClass. simpl. rewrite lookup_insert_eq.
  exists sch. eexists. split; reflexivity.
Qed.

(** ** The recursion *)

Lemma generateClass_S fuel n iModel w :
  generateClass (S fuel) n iModel w =
  match fst (MetaData.find n (classMetaDataRegistry iModel)) with
  | None => (Throw makeMetaDataNotFoundError, w)
  | Some md =>
      match ecclass md with
      | None => (Throw makeMetaDataNotFoundError, w)
      | Some _ =>
          match primaryBase md with
          | Some b =>
              match getClass fuel b iModel w with
              | (Normal _, w1) => generateClassForEntity md w1
              | (Throw e, w1) => (Throw e, w1)
              | (OutOfFuel, w1) => (OutOfFuel, w1)
              end
          | None => generateClassForEntity md w
          end
      end
  end.
Proof.
  simpl. destruct (_registry (classMetaDataRegistry iModel) !! toLowerCase n) as [md|];
    [|reflexivity].
  destruct (ecclass md); [|reflexivity].
  unfold primaryBase, getClass.
  destruct (baseClasses md) as [[|b rest]|]; try reflexivity.
  unfold bind at 1 2.
  destruct (getClass_with (generateClass fuel) b iModel w) as [[c|e|] w1]; reflexivity.
Qed.

Lemma generateClassForEntity_fuel md w w' :
  generateClassForEntity md w <> (OutOfFuel, w').
Proof.
  intros H. apply generateClassForEntity_cases in H as [[_ [err [=]]]|H].
  destruct H as (e & sch & _ & _ & _ & _ & _ & Hr).
  destruct (lookupClass e w'); discriminate.
Qed.

Lemma getClass_unfold fuel n iModel w :
  getClass fuel n iModel w =
  match classMap w !! toLowerCase n with
  | Some c => (Normal c, w)
  | None => generateClass fuel n iModel w
  end.
Proof.
  destruct (classMap w !! toLowerCase n) as [c|] eqn:H.
  - now apply getClass_with_hit.
  - now apply getClass_with_miss.
Qed.

Lemma Grounded_terminates iModel w n :
  Grounded iModel w n ->
  exists N, forall fuel, N <= fuel ->
    forall w', getClass fuel n iModel w <> (OutOfFuel, w').
Proof.
  induction 1 as [n [c Hc]|n Hf|n md Hf Hb|n md b Hf Hb _ [N IH]].
  - exists 0. intros fuel _ w'. rewrite getClass_unfold.
    unfold lookupClass in Hc. rewrite Hc. discriminate.
  - exists 1. intros [|fuel] Hle w'; [lia|]. rewrite getClass_unfold.
    destruct (classMap w !! toLowerCase n); [discriminate|].
    rewrite generateClass_S, Hf. discriminate.
  - exists 1. intros [|fuel] Hle w'; [lia|]. rewrite getClass_unfold.
    destruct (classMap w !! toLowerCase n); [discriminate|].
    rewrite generateClass_S, Hf, Hb.
    destruct (ecclass md); [|discriminate]. apply generateClassForEntity_fuel.
  - exists (S N). intros [|fuel] Hle w'; [lia|]. rewrite getClass_unfold.
    destruct (classMap w !! toLowerCase n); [discriminate|].
    rewrite generateClass_S, Hf, Hb.
    destruct (ecclass md); [|discriminate].
    destruct (getClass fuel b iModel w) as [[c|e|] w1] eqn:Hg.
    + apply generateClassForEntity_fuel.
    + discriminate.
    + exfalso. apply (IH fuel ltac:(lia) w1). exact Hg.
Qed.

Lemma generateClass_inv fuel n iModel w c w' :
  generateClass fuel n iModel w = (Normal c, w') ->
  exists md e w1,
    fst (MetaData.find n (classMetaDataRegistry iModel)) = Some md
    /\ ecclass md = Some e
    /\ generateClassForEntity md w1 = (Normal c, w').
Proof.
  destruct fuel as [|fuel]; [discriminate|].
  rewrite generateClass_S.
  destruct (fst (MetaData.find n (classMetaDataRegistry iModel))) as [md|];
    [|discriminate].
  destruct (ecclass md) as [e|] eqn:He; [|discriminate].
  destruct (primaryBase md) as [b|].
  - destruct (getClass fuel b iModel w) as [[p|err|] w1]; try discriminate.
    intros H. exists md, e, w1. auto.
  - intros H. exists md, e, w. auto.
Qed.

Lemma generateClassForEntity_returns md w c w' e :
  generateClassForEntity md w = (Normal c, w') ->
  ecclass md = Some e ->
  lookupClass e w' = Some c.
Proof.
  intros H He. apply generateClassForEntity_cases in H as [[_ [err [=]]]|H].
  destruct H as (e' & sch & He' & _ & _ & _ & _ & Hr).
  rewrite He in He'. injection He' as <-.
  destruct (lookupClass e w'); congruence.
Qed.

(** C4, as amended.  When the descriptor held under [n] names [n] itself, a
    [getClass(n)] that has returned a constructor has left it in the class
    map under [n]'s key; every later [getClass(n)] returns that same
    constructor and leaves the state alone, whatever fuel it is given and
    whatever [generateClass] it is handed: the synthesis path is not
    entered. *)
Theorem getClass_idempotent (fuel : nat) (n : string) (iModel : IModelDb)
    (w : World) (c : EntityCtor) (w1 : World) :
  selfNamed iModel n ->
  getClass fuel n iModel w = (Normal c, w1) ->
  lookupClass n w1 = Some c
  /\ (forall fuel', getClass fuel' n iModel w1 = (Normal c, w1))
  /\ (forall gen, getClass_with gen n iModel w1 = (Normal c, w1)).
Proof.
  intros Hself Hg.
  assert (Hl : lookupClass n w1 = Some c).
  { rewrite getClass_unfold in Hg. unfold lookupClass.
    destruct (classMap w !! toLowerCase n) as [c'|] eqn:Hc.
    - injection Hg as <- <-. exact Hc.
    - apply generateClass_inv in Hg as (md & e & wm & Hf & He & Hg).
      apply (generateClassForEntity_returns _ _ _ _ e) in Hg; [|exact He].
      unfold lookupClass in Hg. now rewrite <- (Hself md e Hf He). }
  split; [exact Hl|]. split.
  - intros fuel'. now apply getClass_with_hit.
  - intros gen. now apply getClass_with_hit.
Qed.

(** C2, as amended.  When the metadata registry has no entry for [n] and [n]
    is not registered, [getClass(n)], with fuel for the one call of
    [generateClass] that it makes, throws the metadata-not-found error and
    leaves the state as it was; the class map has no entry for [n]
    afterwards. *)
Theorem getClass_missing_metadata (fuel : nat) (n : string) (iModel : IModelDb)
    (w : World) :
  fst (MetaData.find n (classMetaDataRegistry iModel)) = None ->
  lookupClass n w = None ->
  getClass (S fuel) n iModel w = (Throw makeMetaDataNotFoundError, w)
  /\ lookupClass n (snd (getClass (S fuel) n iModel w)) = None.
Proof.
  intros Hf Hl.
  assert (Hg : getClass (S fuel) n iModel w = (Throw makeMetaDataNotFoundError, w)).
  { rewrite getClass_unfold. unfold lookupClass in Hl. rewrite Hl.
    now rewrite generateClass_S, Hf. }
  rewrite Hg. auto.
Qed.

(** C7.  For a descriptor with a primary base [b]: whatever the state in
    which [generateClassForEntity] runs and however it ends, either it has
    thrown and left the class map as it was, or one constructor has been put
    into the map, [b] was registered in the map before, and the new
    constructor extends the constructor registered for [b].  On the generation path, a
    [generateClass] that returns has resolved [b] by [getClass] first, and
    [b] is registered in the state in which the synthesis then runs. *)
Theorem base_registered_before_derived (md : EntityMetaData) (b : string) :
  primaryBase md = Some b ->
  (forall w r w',
      generateClassForEntity md w = (r, w') ->
      (classMap w' = classMap w /\ exists err, r = Throw err)
      \/ exists p key c,
           lookupClass b w = Some p
           /\ ctor_extends c = Some p
           /\ classMap w' = <[key := c]> (classMap w))
  /\ (forall fuel n iModel w c w',
        fst (MetaData.find n (classMetaDataRegistry iModel)) = Some md ->
        generateClass fuel n iModel w = (Normal c, w') ->
        exists fuel0 p1 w1 p key c0,
          fuel = S fuel0
          /\ getClass fuel0 b iModel w = (Normal p1, w1)
          /\ lookupClass b w1 = Some p
          /\ generateClassForEntity md w1 = (Normal c, w')
          /\ ctor_extends c0 = Some p
          /\ classMap w' = <[key := c0]> (classMap w1)).
Proof.
  intros Hb.
  assert (H1 : forall w r w',
      generateClassForEntity md w = (r, w') ->
      (classMap w' = classMap w /\ exists err, r = Throw err)
      \/ exists p key c,
           lookupClass b w = Some p
           /\ ctor_extends c = Some p
           /\ classMap w' = <[key := c]> (classMap w)).
  { intros w r w' H.
    apply generateClassForEntity_cases in H as [H|H]; [now left|right].
    destruct H as (e & sch & He & _ & Hsup & Hm & _ & _).
    destruct (Hsup b Hb) as [p Hp].
    exists p, (getKey (schema_name sch) (str (split_colon e !! 1))),
      (synthesized md e sch w).
    repeat split; auto. unfold synthesized. simpl. now rewrite Hb. }
  split; [exact H1|].
  intros fuel n iModel w c w' Hf Hg.
  destruct fuel as [|fuel]; [discriminate|].
  rewrite generateClass_S, Hf, Hb in Hg.
  destruct (ecclass md) as [e|] eqn:He; [|discriminate].
  destruct (getClass fuel b iModel w) as [[p1|err|] w1] eqn:Hg1;
    [|discriminate|discriminate].
  pose proof Hg as Hc.
  apply generateClassForEntity_cases in Hc as [[_ [err [=]]]|Hc].
  destruct Hc as (e' & sch & He' & _ & Hsup & Hm & _ & _).
  destruct (Hsup b Hb) as [p Hp].
  exists fuel, p1, w1, p, (getKey (schema_name sch) (str (split_colon e' !! 1))),
    (synthesized md e' sch w1).
  repeat split; auto. unfold synthesized. simpl. now rewrite Hb.
Qed.

(** ** Three classes in a chain *)

Section Chain.

Variables (sA cA sB cB sC cC : string) (restB restC : list string).
Variables (iModel : IModelDb) (w : World).

Let fA := sA +:+ ":" +:+ cA.
Let fB := sB +:+ ":" +:+ cB.
Let fC := sC +:+ ":" +:+ cC.

Hypothesis wfA : has_colon sA = false /\ has_colon cA = false /\ sA <> cA.
Hypothesis wfB : has_colon sB = false /\ has_colon cB = false /\ sB <> cB.
Hypothesis wfC : has_colon sC = false /\ has_colon cC = false /\ sC <> cC.

Hypothesis findA :
  fst (MetaData.find fA (classMetaDataRegistry iModel))
  = Some (mkEntityMetaData (Some fA) (Some [])).
Hypothesis findB :
  fst (MetaData.find fB (classMetaDataRegistry iModel))
  = Some (mkEntityMetaData (Some fB) (Some (fA :: restB))).
Hypothesis findC :
  fst (MetaData.find fC (classMetaDataRegistry iModel))
  = Some (mkEntityMetaData (Some fC) (Some (fB :: restC))).

Hypothesis freshA : lookupClass fA w = None.
Hypothesis freshB : lookupClass fB w = None.
Hypothesis freshC : lookupClass fC w = None.

Lemma chain_keys :
  toLowerCase fA <> toLowerCase fB
  /\ toLowerCase fA <> toLowerCase fC
  /\ toLowerCase fB <> toLowerCase fC.
Proof.
  assert (HAB : toLowerCase fA <> toLowerCase fB).
  { intros H. rewrite (find_case _ _ _ H) in findA. congruence. }
  repeat split; auto.
  - intros H. rewrite (find_case _ _ _ H) in findA. congruence.
  - intros H. rewrite (find_case _ _ _ H) in findB.
    rewrite findC in findB. injection findB as _ H1 _. now rewrite H1 in HAB.
Qed.


End Chain.

(** C8.  When the chain of primary bases that starts at [n] is grounded, the
    recursion ends: there is a bound such that with any fuel above it
    [getClass(n)], and [generateClass(n)] when [n] is not registered, do not
    run out of fuel. *)
Theorem recursion_terminates (iModel : IModelDb) (w : World) (n : string) :
  Grounded iModel w n ->
  exists N : nat, forall fuel : nat, N <= fuel ->
    fst (getClass fuel n iModel w) <> OutOfFuel
    /\ (lookupClass n w = None -> fst (generateClass fuel n iModel w) <> OutOfFuel).
Proof.
  intros H. destruct (Grounded_terminates iModel w n H) as [N HN].
  exists N. intros fuel Hle.
  assert (Hg : fst (getClass fuel n iModel w) <> OutOfFuel).
  { destruct (getClass fuel n iModel w) as [r w'] eqn:Hg. simpl.
    intros ->. now apply (HN fuel Hle w'). }
  split; [exact Hg|].
  intros Hl. rewrite getClass_unfold in Hg. unfold lookupClass in Hl.
  now rewrite Hl in Hg.
Qed.

(** On a class that is its own primary base no amount of fuel is enough. *)
Lemma cyclic_metadata_diverges (fuel : nat) :
  getClass fuel "S:Loop" (mkIModelDb loopRegistry) emptyWorld = (OutOfFuel, emptyWorld).
Proof.
  induction fuel as [|fuel IH]; [reflexivity|].
  rewrite getClass_unfold. change (classMap emptyWorld !! toLowerCase "S:Loop") with (@None EntityCtor).
  rewrite generateClass_S.
  change (fst (MetaData.find "S:Loop" (classMetaDataRegistry (mkIModelDb loopRegistry))))
    with (Some (mkEntityMetaData (Some "S:Loop") (Some ["S:Loop"]))).
  simpl. now rewrite IH.
Qed.

(** ** The generated text *)

Lemma append_assoc (a b c : string) : (a +:+ b) +:+ c = a +:+ b +:+ c.
Proof.
  induction a as [|x a IH]; [reflexivity|].
  change (String x ((a +:+ b) +:+ c) = String x (a +:+ b +:+ c)).
  now rewrite IH.
Qed.

(** X8.  The text that the source hands to [eval], the class text of
    [generateClassFromMetaData] with the call of [registerEcClass] appended,
    is the rendering of the statements that [evalGenerated] runs: the proxy
    schema is declared exactly when the schema is not registered, the class
    has its [extends] clause exactly when the list of bases is not empty;
    and where the descriptor lacks a field that is read, both throw the same
    error. *)
Lemma jsDefText_render (md : EntityMetaData) (w : World) :
  jsDefText md w =
  match generatedStatements md w with
  | (Normal g, w') => (Normal (render g), w')
  | (Throw e, w') => (Throw e, w')
  | (OutOfFuel, w') => (OutOfFuel, w')
  end.
Proof.
  unfold jsDefText, generateClassFromMetaData, generatedStatements, render,
    split_ecclass, nonempty_baseClasses.
  destruct (ecclass md) as [e|]; run; [|reflexivity].
  destruct (baseClasses md) as [bs|]; run; [|reflexivity].
  destruct (getRegisteredSchema (str (split_colon e !! 0)) w) as [sch|]; simpl.
  - destruct (length bs =? 0); simpl; now rewrite !append_assoc.
  - destruct (length bs =? 0); simpl; unfold generateProxySchema;
      now rewrite !append_assoc.
Qed.

(** ** The scenarios *)

Example getClass_leaf :
  getClass 3 "S:Leaf" chainIModel emptyWorld = (Normal leafCtor, chainWorld).
Proof. vm_compute. reflexivity. Qed.

Example createInstance_leaf :
  createInstance 3 (mkEntityProps (Some "S:Leaf")) chainIModel emptyWorld
  = (Normal (mkEntity leafCtor (mkEntityProps (Some "S:Leaf")) chainIModel), chainWorld)
  /\ size (classMap chainWorld) = 3.
Proof. split; vm_compute; reflexivity. Qed.

Example getClass_leaf_short_of_fuel :
  fst (getClass 2 "S:Leaf" chainIModel emptyWorld) = OutOfFuel.
Proof. vm_compute. reflexivity. Qed.

(** C3, at a chain whose root class [S:S] bears the name of its schema.  No
    class is registered and the schema [S] is not registered either, so the
    text generated for the root declares [class S] twice, once as the proxy
    schema and once as the entity class; [eval] rejects it, [getClass] on the
    leaf throws and none of the three classes is registered.  With the schema
    registered beforehand the text has no proxy declaration and the same call
    registers all three. *)
Theorem name_clash_defeats_synthesis :
  fst (jsDefText clashMetaData emptyWorld)
  = Normal ("class S extends ClassRegistry.getSchemaBaseClass(){} "
            +:+ "ClassRegistry.registerSchema(S);"
            +:+ "class S  { } S.schema = ClassRegistry.getRegisteredSchema('S'); "
            +:+ "ClassRegistry.registerEcClass(S); ")
  /\ getClass 3 "S:Leaf" (mkIModelDb clashRegistry) emptyWorld
     = (Throw SyntaxError, emptyWorld)
  /\ lookupClass "S:S"
       (snd (getClass 3 "S:Leaf" (mkIModelDb clashRegistry) emptyWorld)) = None
  /\ lookupClass "S:Mid"
       (snd (getClass 3 "S:Leaf" (mkIModelDb clashRegistry) emptyWorld)) = None
  /\ lookupClass "S:Leaf"
       (snd (getClass 3 "S:Leaf" (mkIModelDb clashRegistry) emptyWorld)) = None
  /\ (exists (c : EntityCtor) (w' : World),
        getClass 3 "S:Leaf" (mkIModelDb clashRegistry) (mkWorld ∅ [mkSchema "S"] 0)
        = (Normal c, w')
        /\ is_Some (lookupClass "S:S" w')
        /\ is_Some (lookupClass "S:Mid" w')
        /\ lookupClass "S:Leaf" w' = Some c).
Proof.
  split; [vm_compute; reflexivity|].
  split; [vm_compute; reflexivity|].
  do 3 (split; [vm_compute; reflexivity|]).
  eexists. eexists.
  split; [vm_compute; reflexivity|].
  split; [vm_compute; eauto|].
  split; [vm_compute; eauto|].
  vm_compute. reflexivity.
Qed.

Example generateClassForEntity_base_missing :
  generateClassForEntity midMetaData emptyWorld
  = (Throw TypeError, mkWorld ∅ [mkSchema "S"] 0).
Proof. vm_compute. reflexivity. Qed.

(** A class registered by hand, with no metadata in the cache: [getClass]
    returns its constructor, nothing fails, and the class map has the entry
    afterwards as before. *)
Lemma getClass_missing_metadata_fails_when_registered :
  fst (MetaData.find "S:X" emptyRegistry) = None
  /\ getClass 1 "S:X" (mkIModelDb emptyRegistry) handWrittenWorld
     = (Normal handWritten, handWrittenWorld)
  /\ lookupClass "S:X" handWrittenWorld = Some handWritten.
Proof.
  split; [reflexivity|]. split.
  - now apply getClass_with_hit.
  - reflexivity.
Qed.

Lemma getClass_missing_metadata_witness :
  getClass 1 "S:X" (mkIModelDb emptyRegistry) emptyWorld
  = (Throw makeMetaDataNotFoundError, emptyWorld)
  /\ lookupClass "S:X"
       (snd (getClass 1 "S:X" (mkIModelDb emptyRegistry) emptyWorld)) = None.
Proof.
  apply (getClass_missing_metadata 0 "S:X" (mkIModelDb emptyRegistry) emptyWorld);
    reflexivity.
Defined.

(** A descriptor held under [S:Alias] that names the class [S:Real]: the
    first [getClass("S:Alias")] succeeds and registers its constructor under
    [s:real]; the second finds nothing under [s:alias], runs the synthesis
    again and returns another constructor. *)
Lemma getClass_alias_not_idempotent :
  getClass 1 "S:Alias" (mkIModelDb aliasRegistry) emptyWorld
  = (Normal realCtor, aliasWorld)
  /\ getClass 1 "S:Alias" (mkIModelDb aliasRegistry) aliasWorld
     = (Normal realCtor', aliasWorld')
  /\ realCtor <> realCtor'
  /\ lookupClass "S:Alias" aliasWorld = None
  /\ allocated aliasWorld' = S (allocated aliasWorld).
Proof.
  split; [vm_compute; reflexivity|].
  split; [vm_compute; reflexivity|].
  split; [discriminate|]. split; reflexivity.
Qed.

Lemma getClass_idempotent_witness :
  lookupClass "S:Leaf" chainWorld = Some leafCtor
  /\ (forall fuel', getClass fuel' "S:Leaf" chainIModel chainWorld = (Normal leafCtor, chainWorld))
  /\ (forall gen, getClass_with gen "S:Leaf" chainIModel chainWorld = (Normal leafCtor, chainWorld)).
Proof.
  apply (getClass_idempotent 3 "S:Leaf" chainIModel emptyWorld leafCtor chainWorld).
  - intros md e Hf He. vm_compute in Hf. injection Hf as <-.
    injection He as <-. reflexivity.
  - vm_compute. reflexivity.
Defined.


Lemma getClass_case_insensitive_witness :
  getClass 3 "S:Leaf" chainIModel emptyWorld = getClass 3 "s:leaf" chainIModel emptyWorld
  /\ lookupClass "S:Leaf" emptyWorld = lookupClass "s:leaf" emptyWorld
  /\ MetaData.find "S:Leaf" (classMetaDataRegistry chainIModel)
     = MetaData.find "s:leaf" (classMetaDataRegistry chainIModel).
Proof.
  apply (getClass_case_insensitive 3 "S:Leaf" "s:leaf" chainIModel emptyWorld).
  reflexivity.
Defined.

Lemma createInstance_BadArg_witness :
  createInstance 3 (mkEntityProps (Some "")) chainIModel emptyWorld
  = (Throw (IModelError BadArg), emptyWorld).
Proof.
  apply (createInstance_BadArg 3 (mkEntityProps (Some "")) chainIModel emptyWorld).
  right. reflexivity.
Defined.

Lemma base_registered_before_derived_witness :
  (classMap midWorld = classMap rootWorld
   /\ exists err, @Normal EntityCtor midCtor = Throw err)
  \/ exists p key c,
       lookupClass "S:Root" rootWorld = Some p
       /\ ctor_extends c = Some p
       /\ classMap midWorld = <[key := c]> (classMap rootWorld).
Proof.
  apply (proj1 (base_registered_before_derived midMetaData "S:Root" eq_refl)
           rootWorld (Normal midCtor) midWorld).
  vm_compute. reflexivity.
Defined.

Lemma recursion_terminates_witness :
  exists N : nat, forall fuel : nat, N <= fuel ->
    fst (getClass fuel "S:Leaf" chainIModel emptyWorld) <> OutOfFuel
    /\ (lookupClass "S:Leaf" emptyWorld = None ->
        fst (generateClass fuel "S:Leaf" chainIModel emptyWorld) <> OutOfFuel).
Proof.
  apply (recursion_terminates chainIModel emptyWorld "S:Leaf").
  apply (Grounded_derived _ _ "S:Leaf" leafMetaData "S:Mid"); [reflexivity..|].
  apply (Grounded_derived _ _ "S:Mid" midMetaData "S:Root"); [reflexivity..|].
  apply (Grounded_root _ _ "S:Root" rootMetaData); reflexivity.
Defined.

Lemma getClass_hit_returns_witness :
  exists ctor : EntityCtor,
    classMap chainWorld !! toLowerCase "S:Leaf" = Some ctor
    /\ getClass 0 "S:Leaf" chainIModel chainWorld = (Normal ctor, chainWorld)
    /\ fst (getClass 0 "S:Leaf" chainIModel chainWorld) <> Throw makeClassNotFoundError
    /\ fst (getClass 0 "S:Leaf" chainIModel chainWorld) <> Throw AssertError.
Proof.
  apply (getClass_hit_returns 0 "S:Leaf" chainIModel chainWorld).
  vm_compute. reflexivity.
Defined.

(** * More properties *)

(** ** More of MetaDataRegistry *)

(** X1.  [add] under one key leaves what [find] returns under every other
    key as it was. *)
Theorem MetaDataRegistry_add_other_key (n n' : string) (d : EntityMetaData)
    (this : MetaDataRegistry) :
  toLowerCase n' <> toLowerCase n ->
  fst (MetaData.find n' (snd (MetaData.add n d this))) = fst (MetaData.find n' this).
Proof.
  intros Hne. unfold MetaData.find, MetaData.add. simpl.
  now rewrite lookup_insert_ne.
Qed.

(** X2.  Adding again, under a name equal up to letter case, the
    descriptor that [find] returns leaves the cache as it was. *)
Theorem MetaDataRegistry_add_found (n n' : string) (d : EntityMetaData)
    (this : MetaDataRegistry) :
  toLowerCase n' = toLowerCase n ->
  fst (MetaData.find n this) = Some d ->
  snd (MetaData.add n' d this) = this.
Proof.
  intros Hn Hf. unfold MetaData.find, MetaData.add in *. simpl in *.
  rewrite Hn, insert_id by exact Hf. now destruct this.
Qed.

(** ** Keys *)

Lemma toLowerCaseChar_colon (a : ascii) :
  Ascii.eqb (toLowerCaseChar a) ":"%char = Ascii.eqb a ":"%char.
Proof. destruct a as [[] [] [] [] [] [] [] []]; reflexivity. Qed.

Lemma has_colon_toLowerCase (s : string) :
  has_colon (toLowerCase s) = has_colon s.
Proof.
  induction s as [|a s IH]; [reflexivity|].
  simpl. now rewrite toLowerCaseChar_colon, IH.
Qed.

Lemma colon_separated_inj (a b x y : string) :
  has_colon a = false -> has_colon b = false ->
  a +:+ ":" +:+ x = b +:+ ":" +:+ y -> a = b /\ x = y.
Proof.
  revert b. induction a as [|c a IH]; intros [|d b] Ha Hb H.
  - injection H as H. auto.
  - injection H as H1 H2. subst d. simpl in Hb. discriminate.
  - injection H as H1 H2. subst c. simpl in Ha. discriminate.
  - injection H as H1 H2. subst d.
    simpl in Ha, Hb. apply orb_false_iff in Ha as [_ Ha].
    apply orb_false_iff in Hb as [_ Hb].
    destruct (IH b Ha Hb H2) as [-> ->]. auto.
Qed.

(** X3.  For schema names free of colons, [getKey] tells pairs of schema
    and class name apart up to letter case: equal keys mean equal schema
    names and equal class names, case aside. *)
Theorem getKey_injective (s c s' c' : string) :
  has_colon s = false -> has_colon s' = false ->
  getKey s c = getKey s' c' ->
  toLowerCase s = toLowerCase s' /\ toLowerCase c = toLowerCase c'.
Proof.
  intros Hs Hs'. rewrite !getKey_lower. intros H.
  apply colon_separated_inj in H; [exact H| |]; now rewrite has_colon_toLowerCase.
Qed.

(** With a colon in a name two pairs may share a key. *)
Example getKey_collision : getKey "a:b" "c" = getKey "a" "b:c".
Proof. reflexivity. Qed.

(** X4.  [isClassRegistered] does not depend on the letter case of the
    schema name or of the class name, and it holds exactly when
    [lookupClass] finds a constructor under [schema:class]. *)
Theorem isClassRegistered_case (s s' c c' : string) (w : World) :
  toLowerCase s = toLowerCase s' -> toLowerCase c = toLowerCase c' ->
  isClassRegistered s c w = isClassRegistered s' c' w
  /\ (isClassRegistered s c w = true <-> is_Some (lookupClass (s' +:+ ":" +:+ c') w)).
Proof.
  intros Hs Hc. unfold isClassRegistered, lookupClass.
  rewrite (getKey_case s s' c c' Hs Hc). split; [reflexivity|].
  unfold Map_has, getKey. apply bool_decide_eq_true.
Qed.

(** ** registerEcClass *)

(** X5.  A constructor that has a schema is found, once registered,
    by [lookupClass] and [isClassRegistered] under its schema's name and its
    own name in any letter case; the schemas are not touched. *)
Theorem registerEcClass_lookup (ctor : EntityCtor) (schema : Schema) (w : World)
    (s c : string) :
  ctor_schema ctor = Some schema ->
  toLowerCase s = toLowerCase (schema_name schema) ->
  toLowerCase c = toLowerCase (ctor_name ctor) ->
  exists w',
    registerEcClass ctor w = (Normal tt, w')
    /\ lookupClass (s +:+ ":" +:+ c) w' = Some ctor
    /\ isClassRegistered s c w' = true
    /\ registeredSchemas w' = registeredSchemas w.
Proof.
  intros Hsch Hs Hc. unfold registerEcClass. rewrite Hsch.
  eexists. split; [reflexivity|]. unfold lookupClass, isClassRegistered, Map_has. simpl.
  change (toLowerCase (s +:+ ":" +:+ c)) with (getKey s c).
  rewrite (getKey_case s (schema_name schema) c (ctor_name ctor) Hs Hc).
  rewrite lookup_insert_eq. repeat split.
Qed.

(** X6.  [registerEcClass] leaves every name that does not normalize
    to the key of the registered constructor as it was. *)
Theorem registerEcClass_other_key (ctor : EntityCtor) (schema : Schema) (w : World)
    (name : string) :
  ctor_schema ctor = Some schema ->
  toLowerCase name <> getKey (schema_name schema) (ctor_name ctor) ->
  lookupClass name (snd (registerEcClass ctor w)) = lookupClass name w.
Proof.
  intros Hsch Hne. unfold registerEcClass. rewrite Hsch.
  unfold lookupClass, modify. simpl. now rewrite lookup_insert_ne.
Qed.

(** X7.  Of two constructors of one name and schema name, case
    aside, the one registered last is the one registered: the class map is
    as if the first had never been registered. *)
Theorem registerEcClass_last_wins (ctor ctor' : EntityCtor) (schema schema' : Schema)
    (w : World) :
  ctor_schema ctor = Some schema ->
  ctor_schema ctor' = Some schema' ->
  toLowerCase (schema_name schema) = toLowerCase (schema_name schema') ->
  toLowerCase (ctor_name ctor) = toLowerCase (ctor_name ctor') ->
  snd (registerEcClass ctor' (snd (registerEcClass ctor w)))
  = snd (registerEcClass ctor' w)
  /\ lookupClass (schema_name schema +:+ ":" +:+ ctor_name ctor)
       (snd (registerEcClass ctor' (snd (registerEcClass ctor w)))) = Some ctor'.
Proof.
  intros Hsch Hsch' Hs Hc. unfold registerEcClass. rewrite Hsch, Hsch'.
  unfold modify, lookupClass. simpl.
  rewrite (getKey_case _ _ _ _ Hs Hc). rewrite insert_insert_eq.
  split; [reflexivity|].
  change (toLowerCase (schema_name schema +:+ ":" +:+ ctor_name ctor))
    with (getKey (schema_name schema) (ctor_name ctor)).
  rewrite (getKey_case _ _ _ _ Hs Hc). apply lookup_insert_eq.
Qed.

(** A constructor without a schema is not registered. *)
Lemma registerEcClass_no_schema (ctor : EntityCtor) (w : World) :
  ctor_schema ctor = None ->
  registerEcClass ctor w = (Throw TypeError, w).
Proof. intros H. unfold registerEcClass. now rewrite H. Qed.

(** ** The synthesis, branch by branch *)

Lemma generateClassForEntity_outcome (md : EntityMetaData) (w : World) :
  generateClassForEntity md w = synthesisOutcome md w.
Proof.
  unfold generateClassForEntity, synthesisOutcome, generatedStatements,
    split_ecclass, nonempty_baseClasses, evalGenerated, primaryBase.
  destruct (ecclass md) as [e|] eqn:He; [|reflexivity].
  destruct (baseClasses md) as [bs|] eqn:Hb; [|reflexivity].
  run.
  destruct (getRegisteredSchema (str (split_colon e !! 0)) w) as [sch|] eqn:Hs; simpl.
  - destruct bs as [|b rest]; run; unfold lookupClass; run.
    + rewrite (getRegisteredSchema_frame _ _ (classMap w) _ (allocated w)).
      replace (mkWorld (classMap w) (registeredSchemas w) (allocated w)) with w
        by now destruct w.
      rewrite Hs. run.
      unfold afterSynthesis, synthesized, primaryBase, lookupClass. rewrite Hb. simpl.
      destruct (_ !! toLowerCase e); reflexivity.
    + rewrite Hb. simpl.
      destruct (classMap w !! toLowerCase b) as [p|] eqn:Hp; run;
        [|now destruct w].
      rewrite (getRegisteredSchema_frame _ _ (classMap w) _ (allocated w)).
      replace (mkWorld (classMap w) (registeredSchemas w) (allocated w)) with w
        by now destruct w.
      rewrite Hs. run.
      unfold afterSynthesis, synthesized, primaryBase, lookupClass. rewrite Hb, Hp. simpl.
      destruct (_ !! toLowerCase e); reflexivity.
  - case_bool_decide as Hcl; [reflexivity|].
    destruct bs as [|b rest]; run; unfold lookupClass; run.
    + unfold getRegisteredSchema. simpl. rewrite String.eqb_refl. run.
      unfold afterSynthesis, synthesized, primaryBase, lookupClass, withProxySchema.
      rewrite Hb. simpl.
      destruct (_ !! toLowerCase e); reflexivity.
    + rewrite Hb. simpl.
      destruct (classMap w !! toLowerCase b) as [p|] eqn:Hp; run; [|reflexivity].
      unfold getRegisteredSchema. simpl. rewrite String.eqb_refl. run.
      unfold afterSynthesis, synthesized, primaryBase, lookupClass, withProxySchema.
      rewrite Hb. simpl. rewrite Hp.
      destruct (_ !! toLowerCase e); reflexivity.
Qed.

Lemma grows_refl (w : World) : grows w w.
Proof. split; eauto. Qed.

Lemma grows_trans (w1 w2 w3 : World) : grows w1 w2 -> grows w2 w3 -> grows w1 w3.
Proof.
  intros [H1 H2] [H3 H4]. split.
  - intros k c Hk. destruct (H1 k c Hk) as [c' Hc']. eauto.
  - eauto.
Qed.

Lemma getRegisteredSchema_case (n n' : string) (w : World) :
  toLowerCase n = toLowerCase n' ->
  getRegisteredSchema n w = getRegisteredSchema n' w.
Proof. unfold getRegisteredSchema. now intros ->. Qed.

Lemma grows_withProxySchema (schema : string) (w : World) :
  getRegisteredSchema schema w = None -> grows w (withProxySchema schema w).
Proof.
  intros Hn. split; [eauto|].
  intros n s Hs. unfold getRegisteredSchema, withProxySchema in *. simpl.
  destruct (String.eqb (toLowerCase schema) (toLowerCase n)) eqn:E; [|exact Hs].
  apply String.eqb_eq in E. rewrite <- E in Hs. congruence.
Qed.

Lemma grows_afterSynthesis (md : EntityMetaData) (e : string) (sch : Schema) (w : World) :
  grows w (afterSynthesis md e sch w).
Proof.
  split; [|auto].
  intros k c Hk. unfold afterSynthesis. simpl.
  rewrite lookup_insert. case_decide; eauto.
Qed.

Lemma synthesisOutcome_grows (md : EntityMetaData) (w : World) :
  grows w (snd (synthesisOutcome md w)).
Proof.
  unfold synthesisOutcome.
  destruct (ecclass md) as [e|]; [|apply grows_refl].
  destruct (baseClasses md) as [bs|]; [|apply grows_refl].
  destruct (getRegisteredSchema (str (split_colon e !! 0)) w) as [sch|] eqn:Hs.
  - destruct (primaryBase md) as [b|]; simpl.
    + destruct (lookupClass b w); simpl;
        [apply grows_afterSynthesis|apply grows_refl].
    + apply grows_afterSynthesis.
  - case_bool_decide; [apply grows_refl|].
    pose proof (grows_withProxySchema _ _ Hs) as Hp.
    destruct (primaryBase md) as [b|]; simpl.
    + destruct (lookupClass b _); simpl; [|exact Hp].
      eapply grows_trans; [exact Hp|apply grows_afterSynthesis].
    + eapply grows_trans; [exact Hp|apply grows_afterSynthesis].
Qed.

Lemma synthesisOutcome_errors (md : EntityMetaData) (w : World) :
  match fst (synthesisOutcome md w) with
  | Normal _ => True
  | Throw e => synthesisError e
  | OutOfFuel => False
  end.
Proof.
  unfold synthesisOutcome, synthesisError.
  destruct (ecclass md) as [e|]; simpl; auto.
  destruct (baseClasses md) as [bs|]; simpl; auto.
  destruct (getRegisteredSchema _ w) as [sch|];
    [|case_bool_decide; simpl; auto];
    (destruct (primaryBase md) as [b|]; simpl;
     [destruct (lookupClass b _); simpl; auto|];
     destruct (lookupClass e _); simpl; auto).
Qed.

(** ** More of the recursion *)

Lemma generateClass_grows (iModel : IModelDb) (fuel : nat) :
  forall (n : string) (w : World), grows w (snd (generateClass fuel n iModel w)).
Proof.
  induction fuel as [|fuel IH]; intros n w; [apply grows_refl|].
  rewrite generateClass_S.
  destruct (fst (MetaData.find n _)) as [md|]; [|apply grows_refl].
  destruct (ecclass md); [|apply grows_refl].
  destruct (primaryBase md) as [b|].
  - rewrite getClass_unfold.
    destruct (classMap w !! toLowerCase b) as [p|].
    + rewrite generateClassForEntity_outcome. apply synthesisOutcome_grows.
    + specialize (IH b w).
      destruct (generateClass fuel b iModel w) as [[p|err|] w1]; simpl in *; auto.
      eapply grows_trans; [exact IH|].
      rewrite generateClassForEntity_outcome. apply synthesisOutcome_grows.
  - rewrite generateClassForEntity_outcome. apply synthesisOutcome_grows.
Qed.

Lemma getClass_grows (iModel : IModelDb) (fuel : nat) (n : string) (w : World) :
  grows w (snd (getClass fuel n iModel w)).
Proof.
  rewrite getClass_unfold. destruct (classMap w !! toLowerCase n).
  - apply grows_refl.
  - apply generateClass_grows.
Qed.

Lemma generateClass_errors (iModel : IModelDb) (fuel : nat) :
  forall (n : string) (w : World) (e : JsError),
    fst (generateClass fuel n iModel w) = Throw e ->
    e = IModelError NotFound \/ synthesisError e.
Proof.
  induction fuel as [|fuel IH]; intros n w e; [discriminate|].
  rewrite generateClass_S.
  assert (Hsyn : forall md w0, fst (generateClassForEntity md w0) = Throw e ->
                   e = IModelError NotFound \/ synthesisError e).
  { intros md w0 H. right. rewrite generateClassForEntity_outcome in H.
    pose proof (synthesisOutcome_errors md w0) as He. now rewrite H in He. }
  destruct (fst (MetaData.find n _)) as [md|]; [|intros [= <-]; now left].
  destruct (ecclass md); [|intros [= <-]; now left].
  destruct (primaryBase md) as [b|]; [|apply Hsyn].
  rewrite getClass_unfold.
  destruct (classMap w !! toLowerCase b) as [p|]; [apply Hsyn|].
  specialize (IH b w e).
  destruct (generateClass fuel b iModel w) as [[p|err|] w1]; simpl in *;
    [apply Hsyn|exact IH|discriminate].
Qed.

Lemma generateClass_fuel_mono (iModel : IModelDb) (fuel : nat) :
  forall (n : string) (w : World) (r : Completion EntityCtor) (w' : World),
    generateClass fuel n iModel w = (r, w') ->
    r <> OutOfFuel ->
    forall fuel', fuel <= fuel' -> generateClass fuel' n iModel w = (r, w').
Proof.
  induction fuel as [|fuel IH]; intros n w r w' Hg Hr fuel' Hle.
  - injection Hg as <- <-. congruence.
  - destruct fuel' as [|fuel']; [lia|].
    rewrite generateClass_S in *.
    destruct (fst (MetaData.find n _)) as [md|]; [|exact Hg].
    destruct (ecclass md); [|exact Hg].
    destruct (primaryBase md) as [b|]; [|exact Hg].
    rewrite getClass_unfold in *.
    destruct (classMap w !! toLowerCase b) as [p|]; [exact Hg|].
    destruct (generateClass fuel b iModel w) as [r1 w1] eqn:Hb.
    assert (Hr1 : r1 <> OutOfFuel).
    { intros ->. injection Hg as <- <-. congruence. }
    rewrite (IH b w r1 w1 Hb Hr1 fuel' ltac:(lia)). exact Hg.
Qed.

Lemma createInstance_unfold (fuel : nat) (props : EntityProps) (iModel : IModelDb)
    (w : World) :
  createInstance fuel props iModel w =
  if falsy (classFullName props) then (Throw (IModelError BadArg), w)
  else match getClass fuel (str (classFullName props)) iModel w with
       | (Normal c, w') => (Normal (mkEntity c props iModel), w')
       | (Throw e, w') => (Throw e, w')
       | (OutOfFuel, w') => (OutOfFuel, w')
       end.
Proof.
  unfold createInstance. destruct (falsy (classFullName props)); [reflexivity|].
  rewrite getClass_unfold. unfold bind, gets, construct, ret.
  destruct (classMap w !! toLowerCase (str (classFullName props))); [reflexivity|].
  destruct (generateClass fuel _ iModel w) as [[c|e|] w']; reflexivity.
Qed.


Lemma split_colon_nonempty (s : string) : split_colon s <> [].
Proof.
  destruct s as [|a s]; simpl; [discriminate|].
  destruct (Ascii.eqb a ":"); [discriminate|].
  destruct (split_colon s); discriminate.
Qed.

Lemma split_colon_one (e c : string) :
  split_colon e = [c] -> e = c /\ has_colon c = false.
Proof.
  revert c. induction e as [|a e IH]; intros c; simpl.
  - intros [= <-]. auto.
  - destruct (Ascii.eqb a ":") eqn:Ha.
    + intros [= _ H]. now apply split_colon_nonempty in H.
    + destruct (split_colon e) as [|h t] eqn:Hs.
      * intros [= <-]. now apply split_colon_nonempty in Hs.
      * intros [= <- ->]. destruct (IH h eq_refl) as [-> Hh].
        simpl. now rewrite Ha, Hh.
Qed.

Lemma split_colon_two (e s c : string) :
  split_colon e = [s; c] ->
  e = s +:+ ":" +:+ c /\ has_colon s = false /\ has_colon c = false.
Proof.
  revert s. induction e as [|a e IH]; intros s; simpl; [discriminate|].
  destruct (Ascii.eqb a ":") eqn:Ha.
  - intros [= <- H]. apply Ascii.eqb_eq in Ha as ->.
    destruct (split_colon_one e c H) as [-> Hc]. auto.
  - destruct (split_colon e) as [|h t] eqn:Hs; [discriminate|].
    intros [= <- ->]. destruct (IH h eq_refl) as (-> & Hh & Hc).
    simpl. rewrite Ha, Hh. auto.
Qed.

Lemma wfFullName_parts (e : string) :
  wfFullName e = true ->
  exists s c, e = s +:+ ":" +:+ c /\ has_colon s = false /\ has_colon c = false
              /\ s <> c.
Proof.
  unfold wfFullName.
  destruct (split_colon e) as [|s [|c [|? ?]]] eqn:Hs; try discriminate.
  intros H. apply negb_true_iff, String.eqb_neq in H.
  destruct (split_colon_two e s c Hs) as (He & Hhs & Hhc). eauto 8.
Qed.

Lemma Resolvable_base_apart (iModel : IModelDb) (w : World) (n : string)
    (md : EntityMetaData) (b : string) :
  lookupClass n w = None ->
  fst (MetaData.find n (classMetaDataRegistry iModel)) = Some md ->
  primaryBase md = Some b ->
  forall x, Resolvable iModel w x -> toLowerCase x = toLowerCase n ->
            toLowerCase b = toLowerCase n -> False.
Proof.
  intros Hl Hf Hb x Hx.
  induction Hx as [x [c Hc]|x md' e Hl' Hf' He Hen Hwf Hbs
                  |x md' e b' rest Hl' Hf' He Hen Hwf Hbs Hb' IH]; intros Hxn Hbn.
  - unfold lookupClass in *. rewrite Hxn in Hc. congruence.
  - rewrite (find_case _ _ _ Hxn), Hf in Hf'. injection Hf' as <-.
    unfold primaryBase in Hb. now rewrite Hbs in Hb.
  - rewrite (find_case _ _ _ Hxn), Hf in Hf'. injection Hf' as <-.
    unfold primaryBase in Hb. rewrite Hbs in Hb. injection Hb as <-.
    now apply IH.
Qed.

Lemma Resolvable_resolves (iModel : IModelDb) (w : World) (n : string) :
  Resolvable iModel w n ->
  exists N, forall fuel, N <= fuel ->
    exists (c : EntityCtor) (w' : World),
      getClass fuel n iModel w = (Normal c, w')
      /\ lookupClass n w' = Some c
      /\ (forall m, Ancestor iModel w n m -> is_Some (lookupClass m w'))
      /\ (lookupClass n w = None ->
          forall md, fst (MetaData.find n (classMetaDataRegistry iModel)) = Some md ->
            match primaryBase md with
            | Some b => exists p, lookupClass b w' = Some p /\ ctor_extends c = Some p
            | None => ctor_extends c = None
            end).
Proof.
  induction 1 as [n [c Hc]|n md e Hl Hf He Hen Hwf Hbs
                 |n md e b rest Hl Hf He Hen Hwf Hbs Hb [N IH]].
  - exists 0. intros fuel _. exists c, w.
    rewrite getClass_unfold. unfold lookupClass in *. rewrite Hc.
    repeat split; auto.
    + intros m Hm. destruct Hm as [|n md b m Hl]; [eauto|].
      unfold lookupClass in Hl. congruence.
    + congruence.
  - exists 1. intros [|fuel] Hle; [lia|].
    destruct (wfFullName_parts e Hwf) as (s & cn & -> & Hs & Hcn & Hne).
    destruct (generateClassForEntity_ok md s cn w) as (sch & w' & Hg & Hm); auto.
    { congruence. }
    { unfold primaryBase. rewrite Hbs. intros b [=]. }
    exists (synthesized md (s +:+ ":" +:+ cn) sch w), w'.
    assert (Hpb : primaryBase md = None) by (unfold primaryBase; now rewrite Hbs).
    rewrite getClass_unfold. unfold lookupClass in *.
    rewrite Hl, generateClass_S, Hf, He, Hpb, Hm, <- Hen.
    split; [exact Hg|]. split; [apply lookup_insert_eq|]. split.
    + intros m Hm'. destruct Hm' as [|n md' b m _ Hf' Hb' _].
      * rewrite <- Hen, lookup_insert_eq. eauto.
      * congruence.
    + intros _ md' Hf'. injection Hf' as <-.
      rewrite Hpb. unfold synthesized. simpl. now rewrite Hpb.
  - exists (S N). intros [|fuel] Hle; [lia|].
    destruct (IH fuel ltac:(lia)) as (p & w1 & Hgb & Hlb & Hanc & _).
    destruct (wfFullName_parts e Hwf) as (s & cn & -> & Hs & Hcn & Hne).
    assert (Hpb : primaryBase md = Some b) by (unfold primaryBase; now rewrite Hbs).
    destruct (generateClassForEntity_ok md s cn w1) as (sch & w' & Hg & Hm); auto.
    { congruence. }
    { intros b' Hb'. rewrite Hpb in Hb'. injection Hb' as <-. eauto. }
    exists (synthesized md (s +:+ ":" +:+ cn) sch w1), w'.
    assert (Hapart : toLowerCase b <> toLowerCase n).
    { intros Hbn. now apply (Resolvable_base_apart iModel w n md b Hl Hf Hpb b Hb). }
    rewrite getClass_unfold. unfold lookupClass in *.
    rewrite Hl, generateClass_S, Hf, He, Hpb, Hgb, Hm, Hen.
    split; [exact Hg|]. split; [apply lookup_insert_eq|]. split.
    + intros m Hm'. destruct Hm' as [|n md' b' m _ Hf' Hb' Hbm].
      * rewrite lookup_insert_eq. eauto.
      * rewrite Hf in Hf'. injection Hf' as <-.
        rewrite Hpb in Hb'. injection Hb' as <-.
        rewrite lookup_insert. case_decide; eauto.
    + intros _ md' Hf'. injection Hf' as <-.
      rewrite Hpb. exists p. split.
      * rewrite lookup_insert_ne by congruence. exact Hlb.
      * unfold synthesized. simpl. rewrite Hpb. exact Hlb.
Qed.



(** X10.  After a synthesis that returns, the schema named in [ecclass] is
    registered; one constructor has been put into the class map, under the
    key of that schema's name and the class name, and its [schema] is that
    schema; the directory has gained the proxy schema when the schema was
    missing and nothing otherwise. *)
Theorem synthesis_registers_schema (md : EntityMetaData) (e : string) (w w' : World)
    (c : EntityCtor) :
  ecclass md = Some e ->
  generateClassForEntity md w = (Normal c, w') ->
  exists (sch : Schema) (c0 : EntityCtor),
    getRegisteredSchema (str (split_colon e !! 0)) w' = Some sch
    /\ ctor_schema c0 = Some sch
    /\ ctor_name c0 = str (split_colon e !! 1)
    /\ classMap w' = <[getKey (schema_name sch) (ctor_name c0) := c0]> (classMap w)
    /\ lookupClass e w' = Some c
    /\ registeredSchemas w' =
       match getRegisteredSchema (str (split_colon e !! 0)) w with
       | Some _ => registeredSchemas w
       | None => mkSchema (str (split_colon e !! 0)) :: registeredSchemas w
       end.
Proof.
  intros He. rewrite generateClassForEntity_outcome. unfold synthesisOutcome.
  rewrite He. destruct (baseClasses md) as [bs|]; [|discriminate].
  destruct (getRegisteredSchema (str (split_colon e !! 0)) w) as [sch|] eqn:Hs.
  - assert (Hfin :
      (match lookupClass e (afterSynthesis md e sch w) with
       | Some c1 => Normal c1
       | None => Throw AssertError
       end, afterSynthesis md e sch w) = (Normal c, w') ->
      exists (sch0 : Schema) (c0 : EntityCtor),
        getRegisteredSchema (str (split_colon e !! 0)) w' = Some sch0
        /\ ctor_schema c0 = Some sch0
        /\ ctor_name c0 = str (split_colon e !! 1)
        /\ classMap w' = <[getKey (schema_name sch0) (ctor_name c0) := c0]> (classMap w)
        /\ lookupClass e w' = Some c
        /\ registeredSchemas w' = registeredSchemas w).
    { destruct (lookupClass e (afterSynthesis md e sch w)) as [c1|] eqn:Hl;
        [|discriminate].
      intros [= <- <-]. exists sch, (synthesized md e sch w). auto 7. }
    destruct (primaryBase md) as [b|]; [|exact Hfin].
    destruct (lookupClass b w); [exact Hfin|discriminate].
  - case_bool_decide as Hcl; [discriminate|].
    set (w1 := withProxySchema (str (split_colon e !! 0)) w).
    assert (Hfin :
      (match lookupClass e (afterSynthesis md e (mkSchema (str (split_colon e !! 0))) w1) with
       | Some c1 => Normal c1
       | None => Throw AssertError
       end, afterSynthesis md e (mkSchema (str (split_colon e !! 0))) w1) = (Normal c, w') ->
      exists (sch0 : Schema) (c0 : EntityCtor),
        getRegisteredSchema (str (split_colon e !! 0)) w' = Some sch0
        /\ ctor_schema c0 = Some sch0
        /\ ctor_name c0 = str (split_colon e !! 1)
        /\ classMap w' = <[getKey (schema_name sch0) (ctor_name c0) := c0]> (classMap w)
        /\ lookupClass e w' = Some c
        /\ registeredSchemas w' =
           mkSchema (str (split_colon e !! 0)) :: registeredSchemas w).
    { destruct (lookupClass e _) as [c1|] eqn:Hl; [|discriminate].
      intros [= <- <-].
      exists (mkSchema (str (split_colon e !! 0))),
        (synthesized md e (mkSchema (str (split_colon e !! 0))) w1).
      repeat split; auto.
      unfold getRegisteredSchema. simpl. now rewrite String.eqb_refl. }
    destruct (primaryBase md) as [b|]; [|exact Hfin].
    destruct (lookupClass b w1); [exact Hfin|discriminate].
Qed.


(** X13.  A descriptor that has its [ecclass] but no [baseClasses] passes the
    guards of [generateClass] and fails in the text generator: [generateClass]
    throws a [TypeError], not the metadata-not-found error, and leaves the
    state as it was. *)
Theorem generateClass_baseClasses_undefined (fuel : nat) (n : string)
    (iModel : IModelDb) (w : World) (md : EntityMetaData) (e : string) :
  fst (MetaData.find n (classMetaDataRegistry iModel)) = Some md ->
  ecclass md = Some e ->
  baseClasses md = None ->
  generateClass (S fuel) n iModel w = (Throw TypeError, w)
  /\ (lookupClass n w = None -> getClass (S fuel) n iModel w = (Throw TypeError, w)).
Proof.
  intros Hf He Hb.
  assert (Hg : generateClass (S fuel) n iModel w = (Throw TypeError, w)).
  { rewrite generateClass_S, Hf, He. unfold primaryBase. rewrite Hb.
    rewrite generateClassForEntity_outcome. unfold synthesisOutcome.
    now rewrite He, Hb. }
  split; [exact Hg|]. intros Hl. unfold lookupClass in Hl.
  now rewrite getClass_unfold, Hl.
Qed.

(** X12.  When [generateClassForEntity] fails its assertion, the class has
    been made and registered all the same: the class map holds the new
    constructor under the key of its schema and class name, and nothing under
    the key of [ecclass]. *)
Theorem assertion_failure_leaves_class (md : EntityMetaData) (w w' : World) :
  generateClassForEntity md w = (Throw AssertError, w') ->
  exists (e : string) (sch : Schema) (c0 : EntityCtor),
    ecclass md = Some e
    /\ ctor_name c0 = str (split_colon e !! 1)
    /\ ctor_schema c0 = Some sch
    /\ classMap w' = <[getKey (schema_name sch) (ctor_name c0) := c0]> (classMap w)
    /\ lookupClass (schema_name sch +:+ ":" +:+ ctor_name c0) w' = Some c0
    /\ lookupClass e w' = None.
Proof.
  rewrite generateClassForEntity_outcome. unfold synthesisOutcome.
  destruct (ecclass md) as [e|]; [|discriminate].
  destruct (baseClasses md) as [bs|]; [|discriminate].
  assert (Hfin : forall sch w1, classMap w1 = classMap w ->
      (match lookupClass e (afterSynthesis md e sch w1) with
       | Some c1 => Normal c1
       | None => Throw AssertError
       end, afterSynthesis md e sch w1) = (Throw AssertError, w') ->
      exists (e0 : string) (sch0 : Schema) (c0 : EntityCtor),
        Some e = Some e0
        /\ ctor_name c0 = str (split_colon e0 !! 1)
        /\ ctor_schema c0 = Some sch0
        /\ classMap w' = <[getKey (schema_name sch0) (ctor_name c0) := c0]> (classMap w)
        /\ lookupClass (schema_name sch0 +:+ ":" +:+ ctor_name c0) w' = Some c0
        /\ lookupClass e0 w' = None).
  { intros sch w1 Hw1.
    destruct (lookupClass e (afterSynthesis md e sch w1)) as [c1|] eqn:Hl;
      [discriminate|].
    intros [= <-]. exists e, sch, (synthesized md e sch w1).
    repeat split; auto.
    - unfold afterSynthesis. simpl. now rewrite Hw1.
    - unfold lookupClass, afterSynthesis. simpl. apply lookup_insert_eq. }
  destruct (getRegisteredSchema (str (split_colon e !! 0)) w) as [sch|].
  - destruct (primaryBase md) as [b|]; [|now apply Hfin].
    destruct (lookupClass b w); [now apply Hfin|discriminate].
  - case_bool_decide; [discriminate|].
    destruct (primaryBase md) as [b|]; [|now apply Hfin].
    destruct (lookupClass b _); [now apply Hfin|discriminate].
Qed.

(** X17.  [getClass] and [createInstance] never unregister: whatever they are
    called with and however they end, every key that the class map held is
    still held, and every schema that was registered is still the schema
    registered under its name. *)
Theorem getClass_never_unregisters (fuel : nat) (n : string) (props : EntityProps)
    (iModel : IModelDb) (w : World) :
  grows w (snd (getClass fuel n iModel w))
  /\ grows w (snd (createInstance fuel props iModel w)).
Proof.
  split; [apply getClass_grows|].
  rewrite createInstance_unfold.
  destruct (falsy (classFullName props)); [apply grows_refl|].
  pose proof (getClass_grows iModel fuel (str (classFullName props)) w) as H.
  destruct (getClass fuel _ iModel w) as [[c|e|] w']; exact H.
Qed.





(** X24.  For a class name that is not empty, [createInstance] is [getClass]
    followed by the construction of the entity: the same state is left, the
    same error is thrown, and on success the entity is built from the
    constructor that [getClass] returns, the properties and the iModel. *)
Theorem createInstance_getClass (fuel : nat) (props : EntityProps) (iModel : IModelDb)
    (w : World) :
  createInstance fuel props iModel w =
  if falsy (classFullName props) then (Throw (IModelError BadArg), w)
  else match getClass fuel (str (classFullName props)) iModel w with
       | (Normal c, w') => (Normal (mkEntity c props iModel), w')
       | (Throw e, w') => (Throw e, w')
       | (OutOfFuel, w') => (OutOfFuel, w')
       end.
Proof. apply createInstance_unfold. Qed.

(** X25.  [BadArg] comes from an empty or missing class name only: when
    [createInstance] throws [IModelError(BadArg)], [classFullName] is falsy
    and the state is as it was. *)
Theorem createInstance_BadArg_only_if (fuel : nat) (props : EntityProps)
    (iModel : IModelDb) (w w' : World) :
  createInstance fuel props iModel w = (Throw (IModelError BadArg), w') ->
  falsy (classFullName props) = true /\ w' = w.
Proof.
  rewrite createInstance_unfold.
  destruct (falsy (classFullName props)); [now intros [= <-]|].
  rewrite getClass_unfold.
  destruct (classMap w !! _); [discriminate|].
  pose proof (generateClass_errors iModel fuel (str (classFullName props)) w
                (IModelError BadArg)) as He.
  destruct (generateClass fuel _ iModel w) as [[c|e|] w1]; try discriminate.
  intros [= -> ->]. destruct (He eq_refl) as [H|[H|[H|H]]]; discriminate.
Qed.




(** X15.  [getClass] returns registered constructors only: the constructor
    it returns is in the class map afterwards, under the name asked for or
    under the [ecclass] of the descriptor held under that name. *)
Theorem getClass_returns_registered (fuel : nat) (n : string) (iModel : IModelDb)
    (w w' : World) (c : EntityCtor) :
  getClass fuel n iModel w = (Normal c, w') ->
  lookupClass n w' = Some c
  \/ exists md e,
       fst (MetaData.find n (classMetaDataRegistry iModel)) = Some md
       /\ ecclass md = Some e
       /\ lookupClass e w' = Some c.
Proof.
  rewrite getClass_unfold. unfold lookupClass at 1.
  destruct (classMap w !! toLowerCase n) as [c'|] eqn:Hl.
  - intros [= <- <-]. now left.
  - intros Hg. right.
    apply generateClass_inv in Hg as (md & e & w1 & Hf & He & Hg).
    exists md, e. repeat split; auto.
    now apply (generateClassForEntity_returns md w1 c w' e).
Qed.

(** X14.  An error thrown while the primary base is resolved is the error of
    [generateClass]: it is passed on as it is, with the state that the failed
    resolution left, and the class itself is not synthesized. *)
Theorem generateClass_propagates_base_error (fuel : nat) (n : string)
    (iModel : IModelDb) (w w1 : World) (md : EntityMetaData) (e b : string)
    (err : JsError) :
  fst (MetaData.find n (classMetaDataRegistry iModel)) = Some md ->
  ecclass md = Some e ->
  primaryBase md = Some b ->
  getClass fuel b iModel w = (Throw err, w1) ->
  generateClass (S fuel) n iModel w = (Throw err, w1)
  /\ (lookupClass n w = None -> getClass (S fuel) n iModel w = (Throw err, w1)).
Proof.
  intros Hf He Hb Hg.
  assert (H : generateClass (S fuel) n iModel w = (Throw err, w1)).
  { now rewrite generateClass_S, Hf, He, Hb, Hg. }
  split; [exact H|]. intros Hl. unfold lookupClass in Hl.
  now rewrite getClass_unfold, Hl.
Qed.


(** X19.  When the chain of primary bases dangles, [getClass] throws the
    metadata-not-found error, however long the chain is, and registers
    nothing: the state is left as it was. *)
Theorem dangling_chain_not_found (iModel : IModelDb) (w : World) (n : string) :
  Dangling iModel w n ->
  exists N : nat, forall fuel : nat, N <= fuel ->
    getClass fuel n iModel w = (Throw makeMetaDataNotFoundError, w).
Proof.
  intros Hd. induction Hd as [n Hl Hf|n md Hl Hf He|n md e b Hl Hf He Hb _ [N IH]];
    unfold lookupClass in Hl.
  - exists 1. intros [|fuel] Hle; [lia|].
    now rewrite getClass_unfold, Hl, generateClass_S, Hf.
  - exists 1. intros [|fuel] Hle; [lia|].
    now rewrite getClass_unfold, Hl, generateClass_S, Hf, He.
  - exists (S N). intros [|fuel] Hle; [lia|].
    rewrite getClass_unfold, Hl, generateClass_S, Hf, He, Hb.
    now rewrite (IH fuel ltac:(lia)).
Qed.

(** X20.  The not-found error of [getClass] means a dangling chain and
    nothing else: when [getClass] throws [IModelError(NotFound)], the chain
    of primary bases of the name dangles and the state is as it was. *)
Theorem not_found_means_dangling (fuel : nat) (n : string) (iModel : IModelDb)
    (w w' : World) :
  getClass fuel n iModel w = (Throw (IModelError NotFound), w') ->
  Dangling iModel w n /\ w' = w.
Proof.
  revert n w w'.
  assert (Hsyn : forall md w0 w1,
            generateClassForEntity md w0 <> (Throw (IModelError NotFound), w1)).
  { intros md w0 w1 H. pose proof (synthesisOutcome_errors md w0) as He.
    rewrite <- generateClassForEntity_outcome, H in He. simpl in He.
    destruct He as [He|[He|He]]; discriminate. }
  induction fuel as [|fuel IH]; intros n w w'; rewrite getClass_unfold;
    destruct (classMap w !! toLowerCase n) as [c|] eqn:Hl; try discriminate.
  rewrite generateClass_S.
  destruct (fst (MetaData.find n _)) as [md|] eqn:Hf.
  2:{ intros [= <-]. split; [|reflexivity]. now apply Dangling_absent. }
  destruct (ecclass md) as [e|] eqn:He.
  2:{ intros [= <-]. split; [|reflexivity]. now apply (Dangling_anonymous _ _ n md). }
  destruct (primaryBase md) as [b|] eqn:Hb.
  2:{ intros H. now apply Hsyn in H. }
  destruct (getClass fuel b iModel w) as [[p|err|] w1] eqn:Hg.
  - intros H. now apply Hsyn in H.
  - intros [= -> ->]. destruct (IH b w w' Hg) as [Hd ->].
    split; [|reflexivity]. now apply (Dangling_derived _ _ n md e b).
  - discriminate.
Qed.

(** X21.  On a set of unregistered names that is closed under taking the
    primary base, each with a complete descriptor, [getClass] never returns:
    no amount of fuel is enough, and the state is never touched. *)
Theorem closed_cycle_never_returns (iModel : IModelDb) (w : World)
    (P : string -> Prop) :
  (forall n, P n ->
     lookupClass n w = None
     /\ exists md e b,
          fst (MetaData.find n (classMetaDataRegistry iModel)) = Some md
          /\ ecclass md = Some e /\ primaryBase md = Some b /\ P b) ->
  forall (fuel : nat) (n : string), P n ->
    getClass fuel n iModel w = (OutOfFuel, w).
Proof.
  intros Hclosed. induction fuel as [|fuel IH]; intros n Hn;
    destruct (Hclosed n Hn) as (Hl & md & e & b & Hf & He & Hb & HPb);
    unfold lookupClass in Hl; rewrite getClass_unfold, Hl; [reflexivity|].
  now rewrite generateClass_S, Hf, He, Hb, (IH b HPb).
Qed.

(** ** The added scenarios *)

Lemma MetaDataRegistry_add_other_key_witness :
  fst (MetaData.find "s:root" (snd (MetaData.add "S:Other" leafMetaData chainRegistry)))
  = fst (MetaData.find "s:root" chainRegistry).
Proof.
  apply (MetaDataRegistry_add_other_key "S:Other" "s:root" leafMetaData chainRegistry).
  discriminate.
Defined.

Lemma MetaDataRegistry_add_found_witness :
  snd (MetaData.add "s:ROOT" rootMetaData chainRegistry) = chainRegistry.
Proof.
  apply (MetaDataRegistry_add_found "S:Root" "s:ROOT" rootMetaData chainRegistry);
    reflexivity.
Defined.

Lemma getKey_injective_witness :
  toLowerCase "S" = toLowerCase "s" /\ toLowerCase "Root" = toLowerCase "ROOT".
Proof.
  apply (getKey_injective "S" "Root" "s" "ROOT"); reflexivity.
Defined.

Lemma isClassRegistered_case_witness :
  isClassRegistered "S" "Leaf" chainWorld = isClassRegistered "s" "LEAF" chainWorld
  /\ (isClassRegistered "S" "Leaf" chainWorld = true
      <-> is_Some (lookupClass ("s" +:+ ":" +:+ "LEAF") chainWorld)).
Proof.
  apply (isClassRegistered_case "S" "s" "Leaf" "LEAF" chainWorld); reflexivity.
Defined.

Lemma registerEcClass_lookup_witness :
  exists w',
    registerEcClass manualCtor (mkWorld ∅ [mkSchema "S"] 1) = (Normal tt, w')
    /\ lookupClass ("s" +:+ ":" +:+ "x") w' = Some manualCtor
    /\ isClassRegistered "s" "x" w' = true
    /\ registeredSchemas w' = registeredSchemas (mkWorld ∅ [mkSchema "S"] 1).
Proof.
  apply (registerEcClass_lookup manualCtor (mkSchema "S")
           (mkWorld ∅ [mkSchema "S"] 1) "s" "x"); reflexivity.
Defined.

Lemma registerEcClass_other_key_witness :
  lookupClass "S:Leaf" (snd (registerEcClass manualCtor chainWorld))
  = lookupClass "S:Leaf" chainWorld.
Proof.
  apply (registerEcClass_other_key manualCtor (mkSchema "S") chainWorld "S:Leaf");
    [reflexivity|discriminate].
Defined.

Lemma registerEcClass_last_wins_witness :
  snd (registerEcClass manualCtor' (snd (registerEcClass manualCtor chainWorld)))
  = snd (registerEcClass manualCtor' chainWorld)
  /\ lookupClass ("S" +:+ ":" +:+ "X")
       (snd (registerEcClass manualCtor' (snd (registerEcClass manualCtor chainWorld))))
     = Some manualCtor'.
Proof.
  apply (registerEcClass_last_wins manualCtor manualCtor' (mkSchema "S") (mkSchema "s")
           chainWorld); reflexivity.
Defined.

Lemma synthesis_registers_schema_witness :
  exists (sch : Schema) (c0 : EntityCtor),
    getRegisteredSchema (str (split_colon "S:Root" !! 0)) rootWorld = Some sch
    /\ ctor_schema c0 = Some sch
    /\ ctor_name c0 = str (split_colon "S:Root" !! 1)
    /\ classMap rootWorld
       = <[getKey (schema_name sch) (ctor_name c0) := c0]> (classMap emptyWorld)
    /\ lookupClass "S:Root" rootWorld = Some rootCtor
    /\ registeredSchemas rootWorld =
       match getRegisteredSchema (str (split_colon "S:Root" !! 0)) emptyWorld with
       | Some _ => registeredSchemas emptyWorld
       | None => mkSchema (str (split_colon "S:Root" !! 0)) :: registeredSchemas emptyWorld
       end.
Proof.
  apply (synthesis_registers_schema rootMetaData "S:Root" emptyWorld rootWorld rootCtor).
  - reflexivity.
  - vm_compute. reflexivity.
Defined.


Lemma generateClass_baseClasses_undefined_witness :
  generateClass 1 "S:Bare" bareIModel emptyWorld = (Throw TypeError, emptyWorld)
  /\ (lookupClass "S:Bare" emptyWorld = None ->
      getClass 1 "S:Bare" bareIModel emptyWorld = (Throw TypeError, emptyWorld)).
Proof.
  apply (generateClass_baseClasses_undefined 0 "S:Bare" bareIModel emptyWorld
           bareMetaData "S:Bare"); reflexivity.
Defined.

Lemma assertion_failure_leaves_class_witness :
  exists (e : string) (sch : Schema) (c0 : EntityCtor),
    ecclass nestedMetaData = Some e
    /\ ctor_name c0 = str (split_colon e !! 1)
    /\ ctor_schema c0 = Some sch
    /\ classMap nestedWorld
       = <[getKey (schema_name sch) (ctor_name c0) := c0]> (classMap emptyWorld)
    /\ lookupClass (schema_name sch +:+ ":" +:+ ctor_name c0) nestedWorld = Some c0
    /\ lookupClass e nestedWorld = None.
Proof.
  apply (assertion_failure_leaves_class nestedMetaData emptyWorld nestedWorld).
  vm_compute. reflexivity.
Defined.

Lemma dangling_chain_not_found_witness :
  exists N : nat, forall fuel : nat, N <= fuel ->
    getClass fuel "S:Leaf" danglingIModel emptyWorld
    = (Throw makeMetaDataNotFoundError, emptyWorld).
Proof.
  apply (dangling_chain_not_found danglingIModel emptyWorld "S:Leaf").
  apply (Dangling_derived _ _ "S:Leaf" leafMetaData "S:Leaf" "S:Mid"); try reflexivity.
  apply (Dangling_derived _ _ "S:Mid" (mkEntityMetaData (Some "S:Mid") (Some ["S:Gone"]))
           "S:Mid" "S:Gone"); try reflexivity.
  apply Dangling_absent; reflexivity.
Defined.

Lemma not_found_means_dangling_witness :
  Dangling danglingIModel emptyWorld "S:Leaf" /\ emptyWorld = emptyWorld.
Proof.
  apply (not_found_means_dangling 3 "S:Leaf" danglingIModel emptyWorld emptyWorld).
  vm_compute. reflexivity.
Defined.

Lemma closed_cycle_never_returns_witness :
  getClass 1000 "S:Loop" (mkIModelDb loopRegistry) emptyWorld = (OutOfFuel, emptyWorld).
Proof.
  apply (closed_cycle_never_returns (mkIModelDb loopRegistry) emptyWorld
           (fun n => toLowerCase n = "s:loop")); [|reflexivity].
  intros n Hn. split; [reflexivity|].
  exists (mkEntityMetaData (Some "S:Loop") (Some ["S:Loop"])), "S:Loop", "S:Loop".
  unfold MetaData.find. simpl. rewrite Hn. repeat split; reflexivity.
Defined.


Lemma createInstance_BadArg_only_if_witness :
  falsy (classFullName (mkEntityProps None)) = true /\ emptyWorld = emptyWorld.
Proof.
  apply (createInstance_BadArg_only_if 3 (mkEntityProps None) chainIModel
           emptyWorld emptyWorld).
  reflexivity.
Defined.




Lemma getClass_returns_registered_witness :
  lookupClass "S:Leaf" chainWorld = Some leafCtor
  \/ exists md e,
       fst (MetaData.find "S:Leaf" (classMetaDataRegistry chainIModel)) = Some md
       /\ ecclass md = Some e
       /\ lookupClass e chainWorld = Some leafCtor.
Proof.
  apply (getClass_returns_registered 3 "S:Leaf" chainIModel emptyWorld chainWorld
           leafCtor).
  vm_compute. reflexivity.
Defined.

Lemma generateClass_propagates_base_error_witness :
  generateClass 3 "S:Leaf" danglingIModel emptyWorld
  = (Throw (IModelError NotFound), emptyWorld)
  /\ (lookupClass "S:Leaf" emptyWorld = None ->
      getClass 3 "S:Leaf" danglingIModel emptyWorld
      = (Throw (IModelError NotFound), emptyWorld)).
Proof.
  apply (generateClass_propagates_base_error 2 "S:Leaf" danglingIModel emptyWorld
           emptyWorld leafMetaData "S:Leaf" "S:Mid" (IModelError NotFound));
    reflexivity.
Defined.

